(** * Al-Ghazaly storefront: optimistic updates, owner tab, status dot, schema

    A shallow embedding of the parts of the application that carry logic:

    - [Js]             the two string builtins the screens rely on
                       ([String.prototype.trim], [toLowerCase]);
    - [Schema]         the WatermelonDB [appSchema] literal;
    - [TabLayout]      the owner-tab visibility test of the tab shell;
    - [Subscriptions]  the four optimistic handlers of the subscriptions
                       screen, as trees of effects suspended at their [await];
    - [OrderStatus]    the [STATUS_CONFIG] lookup of the status indicator;
    - [Refresh]        [fetchData] and the pending-request counter;
    - [OwnerDashboard] the stock metrics and the gradient of the dashboard;
    - [Ends], [CaseFold], [Guards], [Records]
                       the notions the properties are stated with.

    Strings are sequences of code units below 256 (Rocq's [ascii]); the
    builtins are modelled on that range. *)

From Stdlib Require Import List String Ascii Bool NArith Arith Lia DecimalString.
From Stdlib Require Import ZArith DecimalN Permutation.
Import ListNotations.
Open Scope string_scope.
Open Scope list_scope.

Set Implicit Arguments.

(* ------------------------------------------------------------------ *)
(** ** JavaScript string builtins *)

Module Js.

(** WhiteSpace and LineTerminator code units below 256: TAB, LF, VT, FF,
    CR, SP and NBSP. *)
Definition is_white_space (c : ascii) : bool :=
  let n := nat_of_ascii c in
  ((9 <=? n)%nat && (n <=? 13)%nat) || (n =? 32)%nat || (n =? 160)%nat.

Fixpoint trimStart (s : string) : string :=
  match s with
  | EmptyString => EmptyString
  | String c rest => if is_white_space c then trimStart rest else s
  end.

(** [trimEnd] drops the trailing run of white space: a character is kept
    when it is not white space or when something survives after it. *)
Fixpoint trimEnd (s : string) : string :=
  match s with
  | EmptyString => EmptyString
  | String c rest =>
      match trimEnd rest with
      | EmptyString => if is_white_space c then EmptyString
                       else String c EmptyString
      | kept => String c kept
      end
  end.

Definition trim (s : string) : string := trimEnd (trimStart s).

(** Simple case mapping on U+0000..U+00FF: A-Z and the Latin-1 capitals
    U+00C0..U+00DE (the multiplication sign U+00D7 apart) move up by 32. *)
Definition lower_char (c : ascii) : ascii :=
  let n := nat_of_ascii c in
  if ((65 <=? n)%nat && (n <=? 90)%nat)
     || ((192 <=? n)%nat && (n <=? 222)%nat && negb (n =? 215)%nat)
  then ascii_of_nat (n + 32) else c.

Fixpoint toLowerCase (s : string) : string :=
  match s with
  | EmptyString => EmptyString
  | String c rest => String (lower_char c) (toLowerCase rest)
  end.

(** [!s] on a string: only the empty string is falsy. *)
Definition falsy (s : string) : bool :=
  match s with EmptyString => true | _ => false end.

(** [a || b] where [a] may be undefined or a string. *)
Definition or_else (a : option string) (b : string) : string :=
  match a with
  | Some s => if falsy s then b else s
  | None => b
  end.

(** Template-literal rendering of a non-negative integer. *)
Definition decimal (n : N) : string := NilZero.string_of_uint (N.to_uint n).

(** Strict equality of two possibly-undefined strings. *)
Definition strict_eq (a b : option string) : bool :=
  match a, b with
  | Some x, Some y => String.eqb x y
  | None, None => true
  | _, _ => false
  end.

End Js.

(* ------------------------------------------------------------------ *)
(** ** The local database schema (WatermelonDB [appSchema]) *)

Module Schema.

Inductive ColumnType := TString | TNumber | TBoolean.

Record Column := {
  name : string;
  type : ColumnType;
  isOptional : bool;   (* absent in the literal means false *)
  isIndexed : bool     (* absent in the literal means false *)
}.

Record Table := { table_name : string; columns : list Column }.

Definition col (n : string) (t : ColumnType) : Column :=
  {| name := n; type := t; isOptional := false; isIndexed := false |}.
Definition col_opt (n : string) (t : ColumnType) : Column :=
  {| name := n; type := t; isOptional := true; isIndexed := false |}.
Definition col_idx (n : string) (t : ColumnType) : Column :=
  {| name := n; type := t; isOptional := false; isIndexed := true |}.
Definition col_opt_idx (n : string) (t : ColumnType) : Column :=
  {| name := n; type := t; isOptional := true; isIndexed := true |}.

Definition car_brands : Table :=
  {| table_name := "car_brands";
     columns := [ col "server_id" TString; col "name" TString;
                  col "name_ar" TString; col_opt "logo" TString;
                  col "created_at" TNumber; col "updated_at" TNumber ] |}.

Definition car_models : Table :=
  {| table_name := "car_models";
     columns := [ col "server_id" TString; col_idx "brand_id" TString;
                  col "name" TString; col "name_ar" TString;
                  col_opt "year_start" TNumber; col_opt "year_end" TNumber;
                  col_opt "image_url" TString; col_opt "description" TString;
                  col_opt "description_ar" TString; col_opt "variants" TString;
                  col "created_at" TNumber; col "updated_at" TNumber ] |}.

Definition product_brands : Table :=
  {| table_name := "product_brands";
     columns := [ col "server_id" TString; col "name" TString;
                  col_opt "name_ar" TString; col_opt "logo" TString;
                  col_opt "country_of_origin" TString;
                  col_opt "country_of_origin_ar" TString;
                  col "created_at" TNumber; col "updated_at" TNumber ] |}.

Definition categories : Table :=
  {| table_name := "categories";
     columns := [ col "server_id" TString; col "name" TString;
                  col "name_ar" TString; col_opt_idx "parent_id" TString;
                  col_opt "icon" TString; col "sort_order" TNumber;
                  col "created_at" TNumber; col "updated_at" TNumber ] |}.

Definition products : Table :=
  {| table_name := "products";
     columns := [ col "server_id" TString; col "name" TString;
                  col "name_ar" TString; col_opt "description" TString;
                  col_opt "description_ar" TString; col "price" TNumber;
                  col_idx "sku" TString;
                  col_opt_idx "product_brand_id" TString;
                  col_opt_idx "category_id" TString;
                  col_opt "image_url" TString; col_opt "images" TString;
                  col_opt "car_model_ids" TString;
                  col "stock_quantity" TNumber; col "hidden_status" TBoolean;
                  col "created_at" TNumber; col "updated_at" TNumber ] |}.

Definition favorites : Table :=
  {| table_name := "favorites";
     columns := [ col_opt "server_id" TString; col_idx "user_id" TString;
                  col_idx "product_id" TString;
                  col "created_at" TNumber; col "updated_at" TNumber ] |}.

Definition cart_items : Table :=
  {| table_name := "cart_items";
     columns := [ col_idx "product_id" TString; col "quantity" TNumber;
                  col "created_at" TNumber; col "updated_at" TNumber ] |}.

Definition sync_metadata : Table :=
  {| table_name := "sync_metadata";
     columns := [ col_idx "table_name" TString;
                  col "last_pulled_at" TNumber ] |}.

Definition version : nat := 1.

Definition tables : list Table :=
  [ car_brands; car_models; product_brands; categories; products;
    favorites; cart_items; sync_metadata ].

Definition find_table (n : string) : option Table :=
  find (fun t => String.eqb (table_name t) n) tables.

Definition find_column (t : Table) (n : string) : option Column :=
  find (fun c => String.eqb (name c) n) (columns t).

(** How a table declares its [server_id]. *)
Inductive ServerIdDecl := NoServerId | RequiredServerId | OptionalServerId.

Definition server_id_decl (t : Table) : ServerIdDecl :=
  match find_column t "server_id" with
  | None => NoServerId
  | Some c => if isOptional c then OptionalServerId else RequiredServerId
  end.

Definition is_number_column (t : Table) (n : string) : bool :=
  match find_column t n with
  | Some {| type := TNumber; isOptional := false |} => true
  | _ => false
  end.

Definition has_timestamps (t : Table) : bool :=
  is_number_column t "created_at" && is_number_column t "updated_at".

(** The tables of the schema that back the entity types the specification
    calls synchronized; subscribers have no table. *)
Definition synced_entity_tables : list Table := [ products; favorites; cart_items ].

(** The specification's record shape, read on a table declaration: an
    optional [server_id] next to both timestamps. *)
Definition carries_optional_server_id (t : Table) : bool :=
  match server_id_decl t with OptionalServerId => true | _ => false end.

End Schema.

(* ------------------------------------------------------------------ *)
(** ** The tab shell: who sees the owner tab *)

Module TabLayout.

Record User := { email : option string }.
Record Partner := { partner_email : option string }.

Definition OWNER_EMAIL : string := "pc.2025.ai@gmail.com".

(** [x?.email] on a possibly-null user. *)
Definition user_email (user : option User) : option string :=
  match user with Some u => email u | None => None end.

(** [e?.toLowerCase()]. *)
Definition lowered (e : option string) : option string :=
  option_map Js.toLowerCase e.

Definition isOwner (user : option User) : bool :=
  Js.strict_eq (lowered (user_email user)) (Some (Js.toLowerCase OWNER_EMAIL)).

Definition isPartner (user : option User) (partners : list Partner) : bool :=
  existsb (fun p => Js.strict_eq (lowered (partner_email p))
                                 (lowered (user_email user)))
          partners.

Definition canAccessOwner (user : option User) (partners : list Partner) : bool :=
  isOwner user || isPartner user partners.

(** The screens of the tab bar, in source order. *)
Definition screens (user : option User) (partners : list Partner) : list string :=
  [ "index"; "categories" ]
  ++ (if canAccessOwner user partners then [ "owner-access" ] else [])
  ++ [ "cart"; "profile" ].

Definition owner_tab_rendered (user : option User) (partners : list Partner) : bool :=
  existsb (String.eqb "owner-access") (screens user partners).


End TabLayout.

(* ------------------------------------------------------------------ *)
(** ** The subscriptions screen: optimistic handlers *)

Module Subscriptions.

(** A subscriber as the screen handles it.  [created_at] is the ISO
    rendering of a clock reading; the reading itself stands for it. *)
Record Subscriber := {
  id : string;
  email : string;
  name : option string;
  created_at : N
}.

Record Request := {
  req_id : string;
  customer_email : string;
  customer_name : string;
  business_name : string;
  status : string
}.

(** The store slice and the component state the handlers touch. *)
Record Screen := {
  subscribers : list Subscriber;
  requests : list Request;
  showAddModal : bool;
  newEmail : string;
  loading : bool;
  error : option string;
  showConfetti : bool
}.

Inductive HapticKind := HapticSuccess | HapticError.

(** A setter call or a fire-and-forget side effect. *)
Inductive Effect :=
| SetSubscribers (l : list Subscriber)
| SetRequests (l : list Request)
| SetShowAddModal (b : bool)
| SetNewEmail (s : string)
| SetShowConfetti (b : bool)
| SetLoading (b : bool)
| SetError (e : option string)
| Haptic (k : HapticKind).

(** The remote calls of [subscriberApi] and [subscriptionRequestApi]. *)
Inductive ApiCall :=
| SubscriberCreate (email : string)
| SubscriberDelete (subId : string)
| RequestApprove (reqId : string)
| RequestDelete (reqId : string).

(** How an awaited call settles: [res.data], or the rejection's
    [err.response?.data?.detail]. *)
Inductive Response :=
| Fulfilled (data : Subscriber)
| Rejected (detail : option string).

(** An async handler: effects in program order, a clock read, or an
    [await] that hands the rest of the body to the promise. *)
Inductive Handler :=
| Return
| Do (e : Effect) (k : Handler)
| Clock (k : N -> Handler)
| Await (c : ApiCall) (k : Response -> Handler).

Definition apply_effect (e : Effect) (s : Screen) : Screen :=
  match e with
  | SetSubscribers l =>
      {| subscribers := l; requests := requests s;
         showAddModal := showAddModal s; newEmail := newEmail s;
         loading := loading s; error := error s;
         showConfetti := showConfetti s |}
  | SetRequests l =>
      {| subscribers := subscribers s; requests := l;
         showAddModal := showAddModal s; newEmail := newEmail s;
         loading := loading s; error := error s;
         showConfetti := showConfetti s |}
  | SetShowAddModal b =>
      {| subscribers := subscribers s; requests := requests s;
         showAddModal := b; newEmail := newEmail s;
         loading := loading s; error := error s;
         showConfetti := showConfetti s |}
  | SetNewEmail e =>
      {| subscribers := subscribers s; requests := requests s;
         showAddModal := showAddModal s; newEmail := e;
         loading := loading s; error := error s;
         showConfetti := showConfetti s |}
  | SetShowConfetti b =>
      {| subscribers := subscribers s; requests := requests s;
         showAddModal := showAddModal s; newEmail := newEmail s;
         loading := loading s; error := error s;
         showConfetti := b |}
  | SetLoading b =>
      {| subscribers := subscribers s; requests := requests s;
         showAddModal := showAddModal s; newEmail := newEmail s;
         loading := b; error := error s;
         showConfetti := showConfetti s |}
  | SetError e =>
      {| subscribers := subscribers s; requests := requests s;
         showAddModal := showAddModal s; newEmail := newEmail s;
         loading := loading s; error := e;
         showConfetti := showConfetti s |}
  | Haptic _ => s
  end.

(** What a handler has done when it gives control back: the effects it
    performed, in order, and the call it is suspended on, if any. *)
Record Outcome := {
  performed : list Effect;
  suspended : option (ApiCall * (Response -> Handler))
}.

(** Run a handler body up to its next [await] (or its end); the stretch is
    synchronous, so every clock read in it sees the same reading [now]. *)
Fixpoint run (now : N) (h : Handler) : Outcome :=
  match h with
  | Return => {| performed := []; suspended := None |}
  | Do e k =>
      let o := run now k in
      {| performed := e :: performed o; suspended := suspended o |}
  | Clock k => run now (k now)
  | Await c k => {| performed := []; suspended := Some (c, k) |}
  end.

(** A handler that ran to its end. *)
Definition finished (es : list Effect) : Outcome :=
  {| performed := es; suspended := None |}.

Definition apply_effects (es : list Effect) (s : Screen) : Screen :=
  fold_left (fun acc e => apply_effect e acc) es s.

(** [s.id !== x] as a filter predicate. *)
Definition id_differs (x : string) (s : Subscriber) : bool :=
  negb (String.eqb (id s) x).

Definition req_id_differs (x : string) (r : Request) : bool :=
  negb (String.eqb (req_id r) x).

Definition tempId (now : N) : string := "temp-" ++ Js.decimal now.

Definition set_status (reqId st : string) (r : Request) : Request :=
  if String.eqb (req_id r) reqId
  then {| req_id := req_id r; customer_email := customer_email r;
          customer_name := customer_name r; business_name := business_name r;
          status := st |}
  else r.

(** [handleAddSubscriber], closed over the render's [subscribers] and
    [newEmail]. *)
Definition handleAddSubscriber (render : Screen) : Handler :=
  if Js.falsy (Js.trim (newEmail render)) then Return
  else
    Clock (fun now =>
    let tempId := tempId now in
    Clock (fun date =>
    let optimisticSub :=
      {| id := tempId; email := Js.trim (newEmail render);
         name := None; created_at := date |} in
    Do (SetSubscribers (optimisticSub :: subscribers render))
    (Do (SetShowAddModal false)
    (Do (SetNewEmail EmptyString)
    (Do (SetShowConfetti true)
    (Do (SetLoading true)
    (Await (SubscriberCreate (Js.trim (newEmail render)))
       (fun res =>
          match res with
          | Fulfilled data =>
              Do (SetSubscribers
                    (data :: filter (id_differs tempId) (subscribers render)))
              (Do (Haptic HapticSuccess)
              (Do (SetLoading false) Return))
          | Rejected detail =>
              Do (SetSubscribers
                    (filter (id_differs tempId) (subscribers render)))
              (Do (SetError (Some (Js.or_else detail "Failed to add subscriber")))
              (Do (Haptic HapticError)
              (Do (SetLoading false) Return)))
          end)))))))).

(** [handleDeleteSubscriber]. *)
Definition handleDeleteSubscriber (render : Screen) (subId : string) : Handler :=
  match find (fun s => String.eqb (id s) subId) (subscribers render) with
  | None => Return
  | Some subToDelete =>
      Do (SetSubscribers (filter (id_differs subId) (subscribers render)))
      (Await (SubscriberDelete subId)
         (fun res =>
            match res with
            | Fulfilled _ => Do (Haptic HapticSuccess) Return
            | Rejected detail =>
                Do (SetSubscribers (subscribers render ++ [subToDelete]))
                (Do (SetError (Some (Js.or_else detail "Failed to delete subscriber")))
                Return)
            end))
  end.

(** [handleApproveRequest]. *)
Definition handleApproveRequest (render : Screen) (reqId : string) : Handler :=
  match find (fun r => String.eqb (req_id r) reqId) (requests render) with
  | None => Return
  | Some request =>
      Do (SetRequests (map (set_status reqId "approved") (requests render)))
      (Do (SetShowConfetti true)
      (Await (RequestApprove reqId)
         (fun res =>
            match res with
            | Fulfilled _ =>
                Clock (fun now =>
                Clock (fun date =>
                let newSub :=
                  {| id := "sub-" ++ Js.decimal now;
                     email := customer_email request;
                     name := Some (customer_name request);
                     created_at := date |} in
                Do (SetSubscribers (newSub :: subscribers render))
                (Do (Haptic HapticSuccess) Return)))
            | Rejected detail =>
                Do (SetRequests (map (set_status reqId "pending") (requests render)))
                (Do (SetError (Some (Js.or_else detail "Failed to approve request")))
                Return)
            end)))
  end.

(** [handleDeleteRequest]. *)
Definition handleDeleteRequest (render : Screen) (reqId : string) : Handler :=
  match find (fun r => String.eqb (req_id r) reqId) (requests render) with
  | None => Return
  | Some reqToDelete =>
      Do (SetRequests (filter (req_id_differs reqId) (requests render)))
      (Await (RequestDelete reqId)
         (fun res =>
            match res with
            | Fulfilled _ => Do (Haptic HapticSuccess) Return
            | Rejected detail =>
                Do (SetRequests (requests render ++ [reqToDelete]))
                (Do (SetError (Some (Js.or_else detail "Failed to delete request")))
                Return)
            end))
  end.

(** *** The screen over time

    Handlers in flight keep the closure of the render they were started
    from.  Every state change re-renders before the next event is handled,
    so a handler started by an event closes over the current screen. *)

Record World := {
  screen : Screen;
  inflight : list (ApiCall * (Response -> Handler))
}.

(** The optimistic mutations the screen offers. *)
Inductive Mutation :=
| AddSubscriber                        (* the modal's Add button *)
| DeleteSubscriber (subId : string)    (* VoidDeleteGesture on a subscriber *)
| ApproveRequest (reqId : string)      (* the approve button of a request *)
| DeleteRequest (reqId : string).      (* VoidDeleteGesture on a request *)

Definition handler_of (render : Screen) (m : Mutation) : Handler :=
  match m with
  | AddSubscriber => handleAddSubscriber render
  | DeleteSubscriber i => handleDeleteSubscriber render i
  | ApproveRequest i => handleApproveRequest render i
  | DeleteRequest i => handleDeleteRequest render i
  end.

Inductive Event :=
| TypeEmail (s : string)              (* onChangeText of the modal input *)
| Invoke (m : Mutation)
| Settle (i : nat) (r : Response).    (* the i-th call in flight settles *)

Fixpoint drop_nth {A} (i : nat) (l : list A) : list A :=
  match l, i with
  | [], _ => []
  | _ :: t, O => t
  | x :: t, S j => x :: drop_nth j t
  end.

(** Run a handler body on the world until it suspends or ends. *)
Definition advance (now : N) (h : Handler) (w : World) : World :=
  let o := run now h in
  {| screen := apply_effects (performed o) (screen w);
     inflight := inflight w ++ match suspended o with
                               | Some p => [p]
                               | None => []
                               end |}.

Definition step (now : N) (ev : Event) (w : World) : World :=
  match ev with
  | TypeEmail s =>
      {| screen := apply_effect (SetNewEmail s) (screen w);
         inflight := inflight w |}
  | Invoke m => advance now (handler_of (screen w) m) w
  | Settle i r =>
      match nth_error (inflight w) i with
      | None => w
      | Some (_, k) =>
          advance now (k r)
            {| screen := screen w; inflight := drop_nth i (inflight w) |}
      end
  end.

(** A timed trace of events, oldest first. *)
Fixpoint steps (evs : list (N * Event)) (w : World) : World :=
  match evs with
  | [] => w
  | (now, ev) :: rest => steps rest (step now ev w)
  end.

Definition idle (s : Screen) : World := {| screen := s; inflight := [] |}.

Definition calls (w : World) : list ApiCall := map fst (inflight w).

(** *** Sample data *)

Definition ann : Subscriber :=
  {| id := "s1"; email := "ann@shop.io"; name := Some "Ann"; created_at := 40 |}.

Definition from_server : Subscriber :=
  {| id := "S1"; email := "a@x.io"; name := None; created_at := 9 |}.

Definition ask : Request :=
  {| req_id := "r1"; customer_email := "c@x.io"; customer_name := "Cy";
     business_name := "Cy Motors"; status := "pending" |}.

(** The Add modal open with an address typed in, nobody subscribed yet,
    one request waiting. *)
Definition typing : Screen :=
  {| subscribers := []; requests := [ ask ]; showAddModal := true;
     newEmail := " a@x.io "; loading := false; error := None;
     showConfetti := false |}.

(** The same modal with only blanks typed. *)
Definition typing_blanks : Screen :=
  {| subscribers := [ ann ]; requests := [ ask ]; showAddModal := true;
     newEmail := "   "; loading := false; error := None;
     showConfetti := false |}.

(** The modal open over a list that already has a subscriber. *)
Definition typing_over_roster : Screen :=
  {| subscribers := [ ann ]; requests := [ ask ]; showAddModal := true;
     newEmail := "bo@shop.io"; loading := false; error := None;
     showConfetti := false |}.

(** One subscriber listed, nothing else going on. *)
Definition roster : Screen :=
  {| subscribers := [ ann ]; requests := []; showAddModal := false;
     newEmail := EmptyString; loading := false; error := None;
     showConfetti := false |}.

(** The screen right after a handler's synchronous stretch. *)
Definition applied (now : N) (render : Screen) (m : Mutation) : Screen :=
  apply_effects (performed (run now (handler_of render m))) render.

(** *** The specification's readings, stated on this screen *)

(** A create that the remote accepts: the store shows a new record at once,
    and once the reply arrives that record has given way to the server's,
    the handler being done. *)
Definition create_reconciled (m : Mutation) : Prop :=
  forall render now c k now' data,
    suspended (run now (handler_of render m)) = Some (c, k) ->
    let confirmed := run now' (k (Fulfilled data)) in
    exists rec,
      subscribers (applied now render m) = rec :: subscribers render
      /\ subscribers (apply_effects (performed confirmed) (applied now render m))
         = data :: filter (id_differs (id rec)) (subscribers render)
      /\ suspended confirmed = None.

(** Unwinding one step at a time, newest first: while the younger of two
    mutations in flight is unresolved, the failure of the older one leaves
    what the screen lists untouched. *)
Definition older_rollback_waits (s : Screen) (m1 m2 : Mutation) : Prop :=
  forall t1 t2 t3 detail,
    let w2 := steps [(t1, Invoke m1); (t2, Invoke m2)] (idle s) in
    List.length (inflight w2) = 2 ->
    let w3 := step t3 (Settle 0 (Rejected detail)) w2 in
    subscribers (screen w3) = subscribers (screen w2)
    /\ requests (screen w3) = requests (screen w2).

(** Unwinding both of two failed mutations gives back the original lists,
    in whichever order the two rejections arrive. *)
Definition unwinding_restores (s : Screen) (t1 : N) (m1 m2 : Mutation) : Prop :=
  forall t2 t3 t4 d1 d2 i,
    let w2 := steps [(t1, Invoke m1); (t2, Invoke m2)] (idle s) in
    List.length (inflight w2) = 2 ->
    let w4 := steps [(t3, Settle i (Rejected d1)); (t4, Settle 0 (Rejected d2))] w2 in
    inflight w4 = [] ->
    subscribers (screen w4) = subscribers s
    /\ requests (screen w4) = requests s.

End Subscriptions.

(* ------------------------------------------------------------------ *)
(** ** The order status indicator *)

Module OrderStatus.

Record StatusConfig := { color : string; pulse : bool; label : string }.

Definition STATUS_CONFIG : list (string * StatusConfig) :=
  [ ("no_active_order", {| color := "#3B82F6"; pulse := false; label := "No Active Order" |});
    ("delivered", {| color := "#3B82F6"; pulse := false; label := "Delivered" |});
    ("pending", {| color := "#EF4444"; pulse := true; label := "Order Placed" |});
    ("confirmed", {| color := "#EF4444"; pulse := true; label := "Confirmed" |});
    ("preparing", {| color := "#FBBF24"; pulse := true; label := "Preparing" |});
    ("shipped", {| color := "#10B981"; pulse := true; label := "Shipped" |});
    ("out_for_delivery", {| color := "#3B82F6"; pulse := true; label := "Out for Delivery" |});
    ("cancelled", {| color := "#6B7280"; pulse := false; label := "Cancelled" |}) ].

(** [STATUS_CONFIG] is an object literal, so a property read that misses
    its own keys continues on [Object.prototype]: its standard members and
    the legacy accessors. *)
Definition object_prototype_keys : list string :=
  [ "constructor"; "hasOwnProperty"; "isPrototypeOf"; "propertyIsEnumerable";
    "toLocaleString"; "toString"; "valueOf"; "__proto__";
    "__defineGetter__"; "__defineSetter__";
    "__lookupGetter__"; "__lookupSetter__" ].

(** What a property read on [STATUS_CONFIG] can yield besides undefined:
    one of its configurations, or an inherited member (a function or the
    prototype object: truthy, and without [color], [pulse] or [label]). *)
Inductive Value :=
| Own (c : StatusConfig)
| Inherited (key : string).

Fixpoint own_property (key : string) (o : list (string * StatusConfig))
  : option StatusConfig :=
  match o with
  | [] => None
  | (k, c) :: rest => if String.eqb k key then Some c else own_property key rest
  end.

(** [STATUS_CONFIG[key]]; [None] is undefined. *)
Definition get (key : string) : option Value :=
  match own_property key STATUS_CONFIG with
  | Some c => Some (Own c)
  | None =>
      if existsb (String.eqb key) object_prototype_keys
      then Some (Inherited key) else None
  end.

(** [a || b] on property reads: every value here is an object, so only
    undefined is falsy. *)
Definition or_else (a b : option Value) : option Value :=
  match a with Some v => Some v | None => b end.

(** [config.color]. *)
Definition color_of (v : Value) : option string :=
  match v with Own c => Some (color c) | Inherited _ => None end.

(** Truthiness of [config.pulse]. *)
Definition pulse_of (v : Value) : bool :=
  match v with Own c => pulse c | Inherited _ => false end.

(** What the component draws: the dot's colour (absent when the style
    receives undefined) and whether the pulse animation runs. *)
Record Rendered := { backgroundColor : option string; shouldPulse : bool }.

(** The component; [status] absent takes the parameter default.  [None]
    stands for a TypeError on reading a property of undefined. *)
Definition OrderStatusIndicator (status : option string) : option Rendered :=
  let status := match status with Some s => s | None => "no_active_order" end in
  match or_else (get status) (get "no_active_order") with
  | None => None
  | Some config =>
      Some {| backgroundColor := color_of config;
              shouldPulse := pulse_of config |}
  end.

Definition configured_keys : list string := map fst STATUS_CONFIG.

Definition pulsing_statuses : list string :=
  [ "pending"; "confirmed"; "preparing"; "shipped"; "out_for_delivery" ].

Definition no_active_order_rendering : Rendered :=
  {| backgroundColor := Some "#3B82F6"; shouldPulse := false |}.

End OrderStatus.

(* ------------------------------------------------------------------ *)
(** ** The subscriptions screen: loading and counting *)

Module Refresh.

Import Subscriptions.

(** How one [getAll()] settles: fulfilled with [res.data] (which may be
    missing), or rejected. *)
Inductive Fetched (A : Type) :=
| Loaded (data : option (list A))
| Unreachable.

Arguments Loaded {A} data.
Arguments Unreachable {A}.

(** [.catch(() => ({ data: [] }))]: the [data] field after the catch. *)
Definition caught {A} (r : Fetched A) : option (list A) :=
  match r with
  | Loaded data => data
  | Unreachable => Some []
  end.

(** [data || []]: an array, even an empty one, is truthy. *)
Definition data_or_empty {A} (data : option (list A)) : list A :=
  match data with Some l => l | None => [] end.

(** [fetchData], once both requests of its [Promise.all] have settled.
    Neither promise can reject after its catch, so the outer catch is
    never entered. *)
Definition fetchData (subsRes : Fetched Subscriber) (reqsRes : Fetched Request)
  : list Effect :=
  [ SetSubscribers (data_or_empty (caught subsRes));
    SetRequests (data_or_empty (caught reqsRes)) ].

(** [requests.filter(r => r.status === 'pending')], the list behind the
    Pending counter and the tab badge. *)
Definition pendingRequests (requests : list Request) : list Request :=
  filter (fun r => String.eqb (status r) "pending") requests.

(** The Requests tab shows its badge when something is pending. *)
Definition tabBadge (requests : list Request) : option nat :=
  if (0 <? List.length (pendingRequests requests))%nat
  then Some (List.length (pendingRequests requests)) else None.

End Refresh.

(* ------------------------------------------------------------------ *)
(** ** White space at the ends of a string *)

Module Ends.

Definition starts_with_white_space (s : string) : bool :=
  match s with
  | EmptyString => false
  | String c _ => Js.is_white_space c
  end.

Fixpoint ends_with_white_space (s : string) : bool :=
  match s with
  | EmptyString => false
  | String c EmptyString => Js.is_white_space c
  | String _ rest => ends_with_white_space rest
  end.

End Ends.

(* ------------------------------------------------------------------ *)
(** ** The owner dashboard: live metrics *)

Module OwnerDashboard.

Record Order := { order_status : string }.

(** A product as the store holds it; [quantity] may be missing. *)
Record Product := { quantity : option Z }.

(** [orders.filter(o => o.status === 'pending').length]. *)
Definition pendingOrders (orders : list Order) : nat :=
  List.length (filter (fun o => String.eqb (order_status o) "pending") orders).

(** [p.quantity || 0]. *)
Definition quantity_or_zero (p : Product) : Z :=
  match quantity p with Some q => q | None => 0%Z end.

(** [products.filter(p => (p.quantity || 0) < 10).length]. *)
Definition lowStock (products : list Product) : nat :=
  List.length (filter (fun p => (quantity_or_zero p <? 10)%Z) products).

Definition totalProducts (products : list Product) : nat := List.length products.

(** The colours handed to the background gradient. *)
Definition gradient_colors (gradient : list string) : list string :=
  if (3 <=? List.length gradient)%nat then gradient
  else [ "#1E1E3F"; "#2D2D5F"; "#3D3D7F" ].

End OwnerDashboard.

(* ------------------------------------------------------------------ *)
(** ** Letters that differ only in case *)

Module CaseFold.






End CaseFold.

(* ------------------------------------------------------------------ *)
(** ** Guards and messages of the subscriptions handlers *)

Module Guards.

Import Subscriptions.


(** The text each catch branch falls back to. *)
Definition fallback_message (m : Mutation) : string :=
  match m with
  | AddSubscriber => "Failed to add subscriber"
  | DeleteSubscriber _ => "Failed to delete subscriber"
  | ApproveRequest _ => "Failed to approve request"
  | DeleteRequest _ => "Failed to delete request"
  end.


End Guards.

(* ------------------------------------------------------------------ *)
(** ** Record shapes *)

Module Records.

Import Schema.



(** A stored value and a row of a table, column name by column name. *)
Inductive Cell :=
| CString (s : string)
| CNumber (n : Z)
| CBoolean (b : bool).

Definition Row := list (string * Cell).

Definition cell_has_type (c : Cell) (t : ColumnType) : bool :=
  match c, t with
  | CString _, TString => true
  | CNumber _, TNumber => true
  | CBoolean _, TBoolean => true
  | _, _ => false
  end.

Fixpoint cell (n : string) (row : Row) : option Cell :=
  match row with
  | [] => None
  | (k, v) :: rest => if String.eqb k n then Some v else cell n rest
  end.

(** A row fits a table when every declared column holds a value of its
    type, or holds nothing and is optional.  That is all the declaration
    of a column says. *)
Definition conforms (t : Table) (row : Row) : bool :=
  forallb (fun c => match cell (name c) row with
                    | Some v => cell_has_type v (type c)
                    | None => isOptional c
                    end)
          (columns t).

(** A favorite with the given ids and timestamps, not yet pushed. *)
Definition favorite_row (user product : string) (created updated : Z) : Row :=
  [ ("user_id", CString user); ("product_id", CString product);
    ("created_at", CNumber created); ("updated_at", CNumber updated) ].

End Records.

(* ================================================================== *)
(** * Properties *)

(* ------------------------------------------------------------------ *)
(** ** String builtins *)

Section JsFacts.

Import Js.


Lemma falsy_empty (s : string) : falsy s = true <-> s = EmptyString.
Proof. destruct s; simpl; split; congruence. Qed.

Example trim_pads : trim "  a b  " = "a b".
Proof. reflexivity. Qed.

Example trim_blank : trim "   " = EmptyString.
Proof. reflexivity. Qed.

Example lower_mixed : toLowerCase "PC.2025.AI@Gmail.com" = "pc.2025.ai@gmail.com".
Proof. reflexivity. Qed.

Example decimal_1700 : decimal 1700 = "1700".
Proof. reflexivity. Qed.

End JsFacts.

(* ------------------------------------------------------------------ *)
(** ** Schema *)

Section SchemaFacts.

Import Schema.

Example find_favorites : find_table "favorites" = Some favorites.
Proof. reflexivity. Qed.

(** Every table but the sync cursor carries both timestamps. *)
Lemma entity_tables_have_timestamps :
  forall t, In t tables -> t <> sync_metadata -> has_timestamps t = true.
Proof.
  intros t Hin Hne. unfold tables in Hin. simpl in Hin.
  repeat (destruct Hin as [<- | Hin]; [ try reflexivity; congruence | ]).
  contradiction.
Qed.

(** Claim C7, as the specification words it, fails on the schema: the
    cart table is one of the synchronized entity tables and it declares
    no server id column at all. *)
Lemma cart_items_has_no_server_id :
  ~ (forall t, In t synced_entity_tables ->
       carries_optional_server_id t = true /\ has_timestamps t = true).
Proof.
  intros H. destruct (H cart_items) as [Hsid _].
  - simpl. auto.
  - vm_compute in Hsid. discriminate.
Qed.



Example favorite_timestamps_unordered :
  Records.conforms favorites (Records.favorite_row "u1" "p1" 200 100) = true
  /\ Records.conforms favorites
       [ ("user_id", Records.CString "u1"); ("product_id", Records.CString "p1");
         ("created_at", Records.CNumber 200) ] = false.
Proof. split; reflexivity. Qed.

End SchemaFacts.

(* ------------------------------------------------------------------ *)
(** ** Owner tab *)

Section OwnerTab.

Import TabLayout.











(** The absent-equals-absent case the equivalence includes: a signed-out
    visitor and a partner record without email. *)
Example owner_tab_signed_out_blank_partner :
  owner_tab_rendered None [ {| partner_email := None |} ] = true.
Proof. reflexivity. Qed.

Example owner_tab_owner_capitals :
  owner_tab_rendered (Some {| email := Some "PC.2025.AI@GMAIL.COM" |}) [] = true.
Proof. reflexivity. Qed.

Example owner_tab_stranger :
  owner_tab_rendered (Some {| email := Some "x@y.z" |})
                     [ {| partner_email := Some "p@q.r" |} ] = false.
Proof. reflexivity. Qed.

End OwnerTab.

(* ------------------------------------------------------------------ *)
(** ** Order status indicator *)

Section StatusIndicator.

Import OrderStatus.

Lemma own_property_none (key : string) (o : list (string * StatusConfig)) :
  own_property key o = None <-> ~ In key (map fst o).
Proof.
  induction o as [| [k c] rest IH]; cbn [own_property map fst In].
  - tauto.
  - destruct (String.eqb_spec k key) as [-> | Hne].
    + split; [ discriminate | intros H; exfalso; apply H; now left ].
    + rewrite IH. tauto.
Qed.

Lemma own_property_some (key : string) (o : list (string * StatusConfig))
      (c : StatusConfig) :
  own_property key o = Some c -> In (key, c) o.
Proof.
  induction o as [| [k c'] rest IH]; cbn [own_property In].
  - discriminate.
  - destruct (String.eqb_spec k key) as [-> | Hne].
    + intros [= ->]. now left.
    + intros H. right. now apply IH.
Qed.

Lemma own_property_configured (s : string) :
  own_property s STATUS_CONFIG = None <-> ~ In s configured_keys.
Proof. apply own_property_none. Qed.

(** The read never hits undefined twice: the component cannot throw. *)
Lemma indicator_total (status : option string) :
  exists r, OrderStatusIndicator status = Some r.
Proof.
  unfold OrderStatusIndicator.
  destruct (get (match status with Some s => s | None => "no_active_order" end));
    cbn [or_else]; [ eauto | ].
  change (get "no_active_order")
    with (Some (Own {| color := "#3B82F6"; pulse := false;
                       label := "No Active Order" |})).
  eauto.
Qed.

(** Unknown statuses that are not inherited member names fall back. *)
Lemma unknown_status_falls_back (s : string) :
  ~ In s configured_keys -> ~ In s object_prototype_keys ->
  OrderStatusIndicator (Some s) = Some no_active_order_rendering.
Proof.
  intros Hown Hproto. unfold OrderStatusIndicator, get at 1.
  apply own_property_configured in Hown. rewrite Hown.
  destruct (existsb (String.eqb s) object_prototype_keys) eqn:E.
  - apply existsb_exists in E. destruct E as [k [Hin Hk]].
    apply String.eqb_eq in Hk. subst k. contradiction.
  - reflexivity.
Qed.

(** The pulse runs for the five active statuses and for nothing else. *)
Lemma pulse_exactly_active (s : string) (r : Rendered) :
  OrderStatusIndicator (Some s) = Some r ->
  (shouldPulse r = true <-> In s pulsing_statuses).
Proof.
  unfold OrderStatusIndicator, get at 1.
  destruct (own_property s STATUS_CONFIG) as [c|] eqn:Hown.
  - cbn [or_else]. intros [= <-]. cbn [shouldPulse pulse_of].
    apply own_property_some in Hown. unfold STATUS_CONFIG in Hown.
    cbn [In] in Hown.
    repeat (destruct Hown as [Hown | Hown];
            [ injection Hown as <- <-; cbn [pulse]; unfold pulsing_statuses;
              split; intros H; try reflexivity; try discriminate;
              cbn [In] in *; try tauto;
              repeat (destruct H as [H | H]; [ discriminate | ]);
              contradiction
            | ]).
    contradiction.
  - assert (Hnot : ~ In s pulsing_statuses).
    { intros H. apply (proj1 (own_property_configured s) Hown).
      unfold pulsing_statuses in H. unfold configured_keys, STATUS_CONFIG.
      cbn [map fst In] in *. tauto. }
    destruct (existsb (String.eqb s) object_prototype_keys);
      cbn [or_else]; [ | change (get "no_active_order")
                           with (Some (Own {| color := "#3B82F6"; pulse := false;
                                              label := "No Active Order" |})) ];
      intros [= <-]; cbn [shouldPulse pulse_of pulse];
      split; (discriminate || tauto).
Qed.

(** Claim C10 at a status naming an inherited member: ["constructor"] is
    none of the eight configured keys, the read finds the inherited
    function, and the dot is drawn without a colour rather than with the
    fallback's blue. *)
Theorem inherited_key_skips_fallback :
  ~ In "constructor" configured_keys
  /\ OrderStatusIndicator (Some "constructor")
     = Some {| backgroundColor := None; shouldPulse := false |}
  /\ OrderStatusIndicator (Some "constructor") <> Some no_active_order_rendering.
Proof.
  split; [ | split ].
  - unfold configured_keys, STATUS_CONFIG; cbn [map fst In]. intros H.
    repeat (destruct H as [H | H]; [ discriminate | ]). contradiction.
  - reflexivity.
  - vm_compute. discriminate.
Qed.

Example indicator_default : OrderStatusIndicator None = Some no_active_order_rendering.
Proof. reflexivity. Qed.

Example indicator_shipped :
  OrderStatusIndicator (Some "shipped")
  = Some {| backgroundColor := Some "#10B981"; shouldPulse := true |}.
Proof. reflexivity. Qed.

Example indicator_refunded :
  OrderStatusIndicator (Some "refunded") = Some no_active_order_rendering.
Proof. reflexivity. Qed.

End StatusIndicator.

(* ------------------------------------------------------------------ *)
(** ** Subscriptions screen *)

Section Optimistic.

Import Subscriptions.

(** *** What each handler does, stretch by stretch *)

Lemma run_add (render : Screen) (now : N) :
  Js.falsy (Js.trim (newEmail render)) = false ->
  let temp := tempId now in
  let optimisticSub := {| id := temp; email := Js.trim (newEmail render);
                          name := None; created_at := now |} in
  exists k,
    run now (handleAddSubscriber render)
    = {| performed := [ SetSubscribers (optimisticSub :: subscribers render);
                        SetShowAddModal false; SetNewEmail EmptyString;
                        SetShowConfetti true; SetLoading true ];
         suspended := Some (SubscriberCreate (Js.trim (newEmail render)), k) |}
    /\ (forall now' data,
          run now' (k (Fulfilled data))
          = finished [ SetSubscribers
                         (data :: filter (id_differs temp) (subscribers render));
                       Haptic HapticSuccess; SetLoading false ])
    /\ (forall now' detail,
          run now' (k (Rejected detail))
          = finished [ SetSubscribers
                         (filter (id_differs temp) (subscribers render));
                       SetError (Some (Js.or_else detail "Failed to add subscriber"));
                       Haptic HapticError; SetLoading false ]).
Proof.
  intros Hne. unfold handleAddSubscriber. rewrite Hne.
  eexists. split; [ reflexivity | split; reflexivity ].
Qed.

Lemma run_add_blank (render : Screen) (now : N) :
  Js.falsy (Js.trim (newEmail render)) = true ->
  run now (handleAddSubscriber render) = finished [].
Proof. intros H. unfold handleAddSubscriber. rewrite H. reflexivity. Qed.

Lemma run_delete (render : Screen) (now : N) (subId : string)
      (subToDelete : Subscriber) :
  find (fun s => String.eqb (id s) subId) (subscribers render) = Some subToDelete ->
  exists k,
    run now (handleDeleteSubscriber render subId)
    = {| performed := [ SetSubscribers
                          (filter (id_differs subId) (subscribers render)) ];
         suspended := Some (SubscriberDelete subId, k) |}
    /\ (forall now' data,
          run now' (k (Fulfilled data)) = finished [ Haptic HapticSuccess ])
    /\ (forall now' detail,
          run now' (k (Rejected detail))
          = finished [ SetSubscribers (subscribers render ++ [subToDelete]);
                       SetError (Some (Js.or_else detail
                                         "Failed to delete subscriber")) ]).
Proof.
  intros Hfind. unfold handleDeleteSubscriber. rewrite Hfind.
  eexists. split; [ reflexivity | split; reflexivity ].
Qed.

Lemma run_delete_missing (render : Screen) (now : N) (subId : string) :
  find (fun s => String.eqb (id s) subId) (subscribers render) = None ->
  run now (handleDeleteSubscriber render subId) = finished [].
Proof. intros H. unfold handleDeleteSubscriber. rewrite H. reflexivity. Qed.

Lemma run_approve (render : Screen) (now : N) (reqId : string) (request : Request) :
  find (fun r => String.eqb (req_id r) reqId) (requests render) = Some request ->
  exists k,
    run now (handleApproveRequest render reqId)
    = {| performed := [ SetRequests
                          (map (set_status reqId "approved") (requests render));
                        SetShowConfetti true ];
         suspended := Some (RequestApprove reqId, k) |}
    /\ (forall now' data,
          run now' (k (Fulfilled data))
          = finished [ SetSubscribers
                         ({| id := "sub-" ++ Js.decimal now';
                             email := customer_email request;
                             name := Some (customer_name request);
                             created_at := now' |} :: subscribers render);
                       Haptic HapticSuccess ])
    /\ (forall now' detail,
          run now' (k (Rejected detail))
          = finished [ SetRequests
                         (map (set_status reqId "pending") (requests render));
                       SetError (Some (Js.or_else detail
                                         "Failed to approve request")) ]).
Proof.
  intros Hfind. unfold handleApproveRequest. rewrite Hfind.
  eexists. split; [ reflexivity | split; reflexivity ].
Qed.

Lemma run_delete_request (render : Screen) (now : N) (reqId : string)
      (reqToDelete : Request) :
  find (fun r => String.eqb (req_id r) reqId) (requests render) = Some reqToDelete ->
  exists k,
    run now (handleDeleteRequest render reqId)
    = {| performed := [ SetRequests
                          (filter (req_id_differs reqId) (requests render)) ];
         suspended := Some (RequestDelete reqId, k) |}
    /\ (forall now' data,
          run now' (k (Fulfilled data)) = finished [ Haptic HapticSuccess ])
    /\ (forall now' detail,
          run now' (k (Rejected detail))
          = finished [ SetRequests (requests render ++ [reqToDelete]);
                       SetError (Some (Js.or_else detail
                                         "Failed to delete request")) ]).
Proof.
  intros Hfind. unfold handleDeleteRequest. rewrite Hfind.
  eexists. split; [ reflexivity | split; reflexivity ].
Qed.

(** A handler that suspends passed its guard. *)
Lemma add_suspended_guard (render : Screen) (now : N) c k :
  suspended (run now (handleAddSubscriber render)) = Some (c, k) ->
  Js.falsy (Js.trim (newEmail render)) = false.
Proof.
  destruct (Js.falsy (Js.trim (newEmail render))) eqn:E; [ | reflexivity ].
  rewrite (run_add_blank render now E). discriminate.
Qed.

Lemma find_suspended_guard {A} (p : A -> bool) (l : list A) (now : N)
      (body : A -> Handler) c k :
  suspended (run now (match find p l with
                      | None => Return
                      | Some x => body x
                      end)) = Some (c, k) ->
  exists x, find p l = Some x.
Proof. destruct (find p l); [ eauto | discriminate ]. Qed.

(** Unpack a suspension hypothesis [H] on handler [m] into the handler's
    three stretches. *)
Ltac stretches H :=
  match type of H with
  | suspended (run ?now (handleAddSubscriber ?r)) = Some _ =>
      let G := fresh "Hguard" in
      let k0 := fresh "k0" in
      pose proof (add_suspended_guard r now H) as G;
      destruct (run_add r now G) as (k0 & Hrun & Hok & Hko);
      rewrite Hrun in H; cbn [suspended] in H; injection H as <- <-
  | suspended (run ?now (handleDeleteSubscriber ?r ?i)) = Some _ =>
      let x := fresh "found" in
      let k0 := fresh "k0" in
      destruct (find_suspended_guard _ _ now _ H) as [x Hfind];
      destruct (run_delete r now i Hfind) as (k0 & Hrun & Hok & Hko);
      rewrite Hrun in H; cbn [suspended] in H; injection H as <- <-
  | suspended (run ?now (handleApproveRequest ?r ?i)) = Some _ =>
      let x := fresh "found" in
      let k0 := fresh "k0" in
      destruct (find_suspended_guard _ _ now _ H) as [x Hfind];
      destruct (run_approve r now i Hfind) as (k0 & Hrun & Hok & Hko);
      rewrite Hrun in H; cbn [suspended] in H; injection H as <- <-
  | suspended (run ?now (handleDeleteRequest ?r ?i)) = Some _ =>
      let x := fresh "found" in
      let k0 := fresh "k0" in
      destruct (find_suspended_guard _ _ now _ H) as [x Hfind];
      destruct (run_delete_request r now i Hfind) as (k0 & Hrun & Hok & Hko);
      rewrite Hrun in H; cbn [suspended] in H; injection H as <- <-
  end.

Lemma find_present {A} (key : A -> string) (i : string) (l : list A) :
  (exists x, In x l /\ key x = i) ->
  exists y, find (fun x => String.eqb (key x) i) l = Some y.
Proof.
  intros (x & Hin & Hkey).
  destruct (find (fun x => String.eqb (key x) i) l) as [y|] eqn:E; [ eauto | ].
  apply (find_none _ _ E) in Hin. cbn beta in Hin.
  rewrite Hkey, String.eqb_refl in Hin. discriminate.
Qed.

Lemma falsy_trim_false (e : string) :
  Js.trim e <> EmptyString -> Js.falsy (Js.trim e) = false.
Proof.
  intros Hne. destruct (Js.falsy (Js.trim e)) eqn:E; [ | reflexivity ].
  apply falsy_empty in E. contradiction.
Qed.







(** The guards are the only way not to reach the network. *)
Lemma add_reaches_network (render : Screen) (now : N) :
  Js.trim (newEmail render) <> EmptyString ->
  exists c k, suspended (run now (handleAddSubscriber render)) = Some (c, k).
Proof.
  intros Hne.
  assert (G : Js.falsy (Js.trim (newEmail render)) = false).
  { destruct (Js.falsy (Js.trim (newEmail render))) eqn:E; [ | reflexivity ].
    apply falsy_empty in E. contradiction. }
  destruct (run_add render now G) as (k & Hrun & _).
  rewrite Hrun. cbn [suspended]. eauto.
Qed.

Lemma delete_reaches_network (render : Screen) (now : N) (sub : Subscriber) :
  In sub (subscribers render) ->
  exists c k,
    suspended (run now (handleDeleteSubscriber render (id sub))) = Some (c, k).
Proof.
  intros Hin.
  destruct (find (fun s => String.eqb (id s) (id sub)) (subscribers render))
    as [x|] eqn:E.
  - destruct (run_delete render now (id sub) E) as (k & Hrun & _).
    rewrite Hrun. cbn [suspended]. eauto.
  - exfalso. apply (find_none _ _ E) in Hin. cbn beta in Hin.
    rewrite String.eqb_refl in Hin. discriminate.
Qed.

Lemma world_eta (w : World) :
  {| screen := screen w; inflight := inflight w |} = w.
Proof. destruct w; reflexivity. Qed.

(** A handler stopped by its guard touches nothing: no setter runs and no
    call goes out. *)
Lemma guarded_mutation_is_noop (w : World) (now : N) (m : Mutation) :
  suspended (run now (handler_of (screen w) m)) = None ->
  step now (Invoke m) w = w.
Proof.
  intros H.
  assert (Hrun : run now (handler_of (screen w) m) = finished []).
  { destruct m as [ | i | i | i ]; cbn [handler_of] in *.
    - destruct (Js.falsy (Js.trim (newEmail (screen w)))) eqn:E.
      + now apply run_add_blank.
      + destruct (run_add (screen w) now E) as (k & Hrun & _).
        rewrite Hrun in H. discriminate.
    - destruct (find (fun s => String.eqb (id s) i) (subscribers (screen w)))
        as [x|] eqn:E.
      + destruct (run_delete (screen w) now i E) as (k & Hrun & _).
        rewrite Hrun in H. discriminate.
      + now apply run_delete_missing.
    - unfold handleApproveRequest in *.
      destruct (find _ (requests (screen w))); [ discriminate | reflexivity ].
    - unfold handleDeleteRequest in *.
      destruct (find _ (requests (screen w))); [ discriminate | reflexivity ]. }
  unfold step, advance. rewrite Hrun.
  cbn [finished performed suspended apply_effects fold_left].
  rewrite app_nil_r. apply world_eta.
Qed.

(** Claim C9: when the typed address trims to nothing, pressing Add leaves
    the whole screen as it was (lists, modal, input, loading, error and
    confetti alike) and puts no call in flight. *)
Theorem blank_email_add_is_noop (w : World) (now : N) :
  Js.trim (newEmail (screen w)) = EmptyString ->
  step now (Invoke AddSubscriber) w = w
  /\ run now (handleAddSubscriber (screen w)) = finished [].
Proof.
  intros Hblank.
  assert (Hrun : run now (handleAddSubscriber (screen w)) = finished []).
  { apply run_add_blank. now apply falsy_empty. }
  split; [ | exact Hrun ].
  unfold step, advance. cbn [handler_of]. rewrite Hrun.
  cbn [finished performed suspended apply_effects fold_left].
  rewrite app_nil_r. apply world_eta.
Qed.

Lemma blank_email_add_is_noop_witness :
  step 7 (Invoke AddSubscriber) (idle typing_blanks) = idle typing_blanks.
Proof.
  exact (proj1 (blank_email_add_is_noop (idle typing_blanks) 7 eq_refl)).
Defined.

Lemma filter_id_differs_absent (x : string) (l : list Subscriber) (s : Subscriber) :
  In s (filter (id_differs x) l) -> id s <> x.
Proof.
  intros Hin. apply filter_In in Hin. destruct Hin as [_ Hd].
  unfold id_differs in Hd. apply Bool.negb_true_iff in Hd.
  now apply String.eqb_neq.
Qed.

Lemma filter_id_differs_same (x : string) (l : list Subscriber) :
  (forall s, In s l -> id s <> x) -> filter (id_differs x) l = l.
Proof.
  induction l as [| a l IH]; intros Hall; cbn [filter]; [ reflexivity | ].
  unfold id_differs at 1.
  rewrite (proj2 (String.eqb_neq (id a) x) (Hall a (or_introl eq_refl))).
  cbn [negb]. f_equal. apply IH. intros s Hs. apply Hall. now right.
Qed.

(** Claim C2: the create handler that put its temporary record on the
    list and then hears a rejection, whenever that is and whatever the
    screen shows by then, leaves a list without any record under the
    temporary id, and starts no further call. *)
Theorem failed_create_leaves_no_temp_record
        (render : Screen) (now : N) c k (w : World) (i : nat) (now' : N)
        (detail : option string) :
  suspended (run now (handleAddSubscriber render)) = Some (c, k) ->
  nth_error (inflight w) i = Some (c, k) ->
  let rolled := step now' (Settle i (Rejected detail)) w in
  (exists rec, id rec = tempId now
               /\ subscribers (applied now render AddSubscriber)
                  = rec :: subscribers render)
  /\ (forall x, In x (subscribers (screen rolled)) -> id x <> tempId now)
  /\ inflight rolled = drop_nth i (inflight w).
Proof.
  intros H Hnth. cbn zeta. stretches H.
  split; [ | split ].
  - unfold applied. cbn [handler_of]. rewrite Hrun. cbn [performed].
    eexists. split; [ | reflexivity ]. reflexivity.
  - unfold step. rewrite Hnth. unfold advance. rewrite Hko.
    cbn. intros x. apply filter_id_differs_absent.
  - unfold step. rewrite Hnth. unfold advance. rewrite Hko.
    cbn. apply app_nil_r.
Qed.

Lemma failed_create_leaves_no_temp_record_witness :
  existsb (fun x => String.eqb (id x) "temp-1")
          (subscribers
             (screen (steps [ (1%N, Invoke AddSubscriber);
                              (5%N, Settle 0 (Rejected (Some "taken"))) ]
                            (idle typing))))
  = false.
Proof.
  destruct (existsb _ _) eqn:E; [ exfalso | reflexivity ].
  apply existsb_exists in E. destruct E as (x & Hin & Hid).
  apply String.eqb_eq in Hid. revert Hid.
  exact (proj1 (proj2 (@failed_create_leaves_no_temp_record
                         typing 1 _ _
                         (step 1 (Invoke AddSubscriber) (idle typing)) 0 5
                         (Some "taken") eq_refl eq_refl)) x Hin).
Defined.

(** The create rollback gives back the very list of its render as long as
    that list holds nothing under the temporary id. *)
Lemma failed_create_restores (render : Screen) (now now' : N) c k detail :
  suspended (run now (handleAddSubscriber render)) = Some (c, k) ->
  (forall s, In s (subscribers render) -> id s <> tempId now) ->
  subscribers (apply_effects (performed (run now' (k (Rejected detail))))
                             (applied now render AddSubscriber))
  = subscribers render.
Proof.
  intros H Hfresh. stretches H. rewrite Hko. cbn.
  now apply filter_id_differs_same.
Qed.

(** The delete rollback appends the removed record to the list of its
    render, which still holds it: one record more than before. *)
Lemma failed_delete_appends (render : Screen) (now now' : N) (subId : string)
      c k detail (s : Screen) :
  suspended (run now (handleDeleteSubscriber render subId)) = Some (c, k) ->
  exists sub,
    In sub (subscribers render)
    /\ subscribers (apply_effects (performed (run now' (k (Rejected detail)))) s)
       = subscribers render ++ [ sub ].
Proof.
  intros H. stretches H. exists found. split.
  - apply find_some in Hfind. tauto.
  - rewrite Hko. reflexivity.
Qed.

(** Claim C3 on a failed delete: one subscriber listed, swiped away, the
    remote refuses; the rollback lists her twice, which is not the list
    the mutation started from. *)
Theorem failed_delete_duplicates_record :
  let w := steps [ (1%N, Invoke (DeleteSubscriber "s1"));
                   (2%N, Settle 0 (Rejected None)) ] (idle roster) in
  subscribers roster = [ ann ]
  /\ subscribers (screen w) = [ ann; ann ]
  /\ subscribers (screen w) <> subscribers roster
  /\ inflight w = [].
Proof.
  cbn zeta. repeat split. vm_compute. discriminate.
Qed.

Lemma add_reconciled : create_reconciled AddSubscriber.
Proof.
  unfold create_reconciled. intros render now c k now' data H. cbn zeta.
  unfold applied. cbn [handler_of] in *. stretches H.
  rewrite Hrun, Hok. cbn [performed finished suspended].
  eexists. split; [ reflexivity | split; reflexivity ].
Qed.

(** Claim C5, amended.  A subscriber added through the modal shows at once
    at the head of the list under the temporary id temp-<clock>, the
    loading flag up; when the remote accepts, the list becomes the
    server's record followed by the render's list without the temporary
    record, the loading flag is down and the handler is done.  A
    subscriber created by approving a request is not listed before the
    reply; after it, the list is headed by a record under the id
    sub-<clock> made on the device, whatever the remote returned. *)
Theorem added_subscriber_reconciled
        (render : Screen) (now now' : N) (data : Subscriber) :
  (Js.trim (newEmail render) <> EmptyString ->
   exists k,
     suspended (run now (handleAddSubscriber render))
     = Some (SubscriberCreate (Js.trim (newEmail render)), k)
     /\ subscribers (applied now render AddSubscriber)
        = {| id := tempId now; email := Js.trim (newEmail render);
             name := None; created_at := now |} :: subscribers render
     /\ loading (applied now render AddSubscriber) = true
     /\ subscribers (apply_effects (performed (run now' (k (Fulfilled data))))
                                   (applied now render AddSubscriber))
        = data :: filter (id_differs (tempId now)) (subscribers render)
     /\ loading (apply_effects (performed (run now' (k (Fulfilled data))))
                               (applied now render AddSubscriber))
        = false
     /\ suspended (run now' (k (Fulfilled data))) = None)
  /\ (forall i request,
        find (fun r => String.eqb (req_id r) i) (requests render) = Some request ->
        exists k,
          suspended (run now (handleApproveRequest render i))
          = Some (RequestApprove i, k)
          /\ subscribers (applied now render (ApproveRequest i))
             = subscribers render
          /\ subscribers
               (apply_effects (performed (run now' (k (Fulfilled data))))
                              (applied now render (ApproveRequest i)))
             = {| id := "sub-" ++ Js.decimal now';
                  email := customer_email request;
                  name := Some (customer_name request);
                  created_at := now' |} :: subscribers render
          /\ suspended (run now' (k (Fulfilled data))) = None)
  /\ create_reconciled AddSubscriber.
Proof.
  split; [ | split; [ | exact add_reconciled ] ].
  - intros Hne.
    destruct (run_add render now (falsy_trim_false _ Hne)) as (k & Hrun & Hok & _).
    cbn zeta in *. exists k. unfold applied. cbn [handler_of].
    rewrite Hrun, Hok. cbn [performed finished suspended].
    repeat (split; [ reflexivity | ]). reflexivity.
  - intros i request Hfind.
    destruct (run_approve render now i Hfind) as (k & Hrun & Hok & _).
    exists k. unfold applied. cbn [handler_of].
    rewrite Hrun, Hok. cbn [performed finished suspended].
    repeat (split; [ reflexivity | ]). reflexivity.
Qed.

(** The theorem at an add the remote accepts and at an approval. *)
Lemma added_subscriber_reconciled_witness :
  (exists k,
      subscribers (apply_effects (performed (run 9 (k (Fulfilled from_server))))
                                 (applied 1 typing AddSubscriber))
      = [ from_server ]
      /\ loading (apply_effects (performed (run 9 (k (Fulfilled from_server))))
                                (applied 1 typing AddSubscriber))
         = false)
  /\ (exists k,
         subscribers (apply_effects (performed (run 9 (k (Fulfilled from_server))))
                                    (applied 1 typing (ApproveRequest "r1")))
         = [ {| id := "sub-9"; email := "c@x.io"; name := Some "Cy";
                created_at := 9 |} ]).
Proof.
  pose proof (@added_subscriber_reconciled typing 1 9 from_server) as [Hadd [Happ _]].
  split.
  - destruct Hadd as (k & _ & _ & _ & Hsubs & Hload & _).
    { vm_compute. discriminate. }
    exists k. split; [ exact Hsubs | exact Hload ].
  - destruct (Happ "r1" ask eq_refl) as (k & _ & _ & Hsubs & _).
    exists k. exact Hsubs.
Defined.

(** Claim C5 as worded fails for the subscriber a request approval creates:
    nothing joins the list before the remote answers, so the create is not
    shown optimistically. *)
Lemma approval_create_not_reconciled : ~ create_reconciled (ApproveRequest "r1").
Proof.
  intros H.
  destruct (@H typing 1%N _ _ 9%N from_server eq_refl) as (rec & Happ & _).
  vm_compute in Happ. discriminate.
Qed.

(** What the approval path does instead: the list is untouched until the
    reply, and then gains a record under an id made up on the device. *)
Example approval_adds_local_id :
  subscribers (screen (step 1 (Invoke (ApproveRequest "r1")) (idle typing))) = []
  /\ subscribers (screen (steps [ (1%N, Invoke (ApproveRequest "r1"));
                                  (9%N, Settle 0 (Fulfilled from_server)) ]
                                (idle typing)))
     = [ {| id := "sub-9"; email := "c@x.io"; name := Some "Cy";
            created_at := 9 |} ].
Proof. split; reflexivity. Qed.

(** Claim C4 as worded fails.  Approve a request, swipe it away before the
    approval settles, and let the approval be refused: its rollback runs
    at once and lists the request again although the delete is still in
    flight.  Add a subscriber, swipe the new row away, and let the create
    and then the delete be refused: the list ends up different from the
    one both mutations started from. *)
Lemma older_rollback_does_not_wait :
  ~ older_rollback_waits typing (ApproveRequest "r1") (DeleteRequest "r1")
  /\ ~ unwinding_restores typing 1 AddSubscriber (DeleteSubscriber "temp-1").
Proof.
  split; intros H.
  - specialize (H 1%N 2%N 3%N None eq_refl). destruct H as [_ H].
    vm_compute in H. discriminate.
  - specialize (H 2%N 3%N 4%N None None 0 eq_refl eq_refl).
    destruct H as [H _]. vm_compute in H. discriminate.
Qed.

Example approval_rollback_relists_request :
  let w2 := steps [ (1%N, Invoke (ApproveRequest "r1"));
                    (2%N, Invoke (DeleteRequest "r1")) ] (idle typing) in
  requests (screen w2) = []
  /\ requests (screen (step 3 (Settle 0 (Rejected None)) w2)) = [ ask ]
  /\ calls (step 3 (Settle 0 (Rejected None)) w2) = [ RequestDelete "r1" ].
Proof. cbn zeta. repeat split. Qed.

Lemma find_head_by_id (sub : Subscriber) (l : list Subscriber) :
  find (fun s => String.eqb (id s) (id sub)) (sub :: l) = Some sub.
Proof. cbn [find]. now rewrite String.eqb_refl. Qed.

Lemma filter_drops_head (sub : Subscriber) (l : list Subscriber) :
  filter (id_differs (id sub)) (sub :: l) = filter (id_differs (id sub)) l.
Proof.
  cbn [filter]. unfold id_differs at 1. now rewrite String.eqb_refl.
Qed.

(** Claim C4, amended: when the row of a subscriber just added is swiped
    away before the create settles, the delete works on the list as the
    create left it, and its rollback puts the added record back.  The two
    rollbacks are not ordered: the create's may run first while the delete
    is still in flight, and it writes the list its own render had, less
    the temporary record. *)
Theorem rollback_from_own_render (s : Screen) (t1 t2 : N) :
  Js.trim (newEmail s) <> EmptyString ->
  let optimisticSub := {| id := tempId t1; email := Js.trim (newEmail s);
                          name := None; created_at := t1 |} in
  let w1 := step t1 (Invoke AddSubscriber) (idle s) in
  let w2 := step t2 (Invoke (DeleteSubscriber (tempId t1))) w1 in
  calls w2 = [ SubscriberCreate (Js.trim (newEmail s));
               SubscriberDelete (tempId t1) ]
  /\ subscribers (screen w2) = filter (id_differs (tempId t1)) (subscribers s)
  /\ (forall t3 detail,
        In optimisticSub
           (subscribers (screen (step t3 (Settle 1 (Rejected detail)) w2))))
  /\ (forall t3 detail,
        let w3 := step t3 (Settle 0 (Rejected detail)) w2 in
        subscribers (screen w3)
        = filter (id_differs (tempId t1)) (subscribers s)
        /\ calls w3 = [ SubscriberDelete (tempId t1) ]).
Proof.
  intros Hne. cbn zeta.
  assert (G : Js.falsy (Js.trim (newEmail s)) = false).
  { destruct (Js.falsy (Js.trim (newEmail s))) eqn:E; [ | reflexivity ].
    apply falsy_empty in E. contradiction. }
  destruct (run_add s t1 G) as (k1 & Hrun1 & _ & Hko1). cbn zeta in *.
  set (optimisticSub := {| id := tempId t1; email := Js.trim (newEmail s);
                           name := None; created_at := t1 |}) in *.
  assert (Hw1 : step t1 (Invoke AddSubscriber) (idle s)
                = {| screen := apply_effects
                                 [ SetSubscribers (optimisticSub :: subscribers s);
                                   SetShowAddModal false; SetNewEmail EmptyString;
                                   SetShowConfetti true; SetLoading true ] s;
                     inflight := [ (SubscriberCreate (Js.trim (newEmail s)), k1) ] |}).
  { unfold step, advance. cbn [handler_of idle screen inflight].
    rewrite Hrun1. reflexivity. }
  rewrite Hw1.
  set (s1 := apply_effects _ s).
  assert (Hsubs1 : subscribers s1 = optimisticSub :: subscribers s) by reflexivity.
  assert (Hfind : find (fun x => String.eqb (id x) (tempId t1)) (subscribers s1)
                  = Some optimisticSub).
  { rewrite Hsubs1. apply (find_head_by_id optimisticSub). }
  destruct (run_delete s1 t2 (tempId t1) Hfind) as (k2 & Hrun2 & _ & Hko2).
  assert (Hw2 : step t2 (Invoke (DeleteSubscriber (tempId t1)))
                     {| screen := s1;
                        inflight := [ (SubscriberCreate (Js.trim (newEmail s)), k1) ] |}
                = {| screen := apply_effects
                                 [ SetSubscribers
                                     (filter (id_differs (tempId t1)) (subscribers s1)) ]
                                 s1;
                     inflight := [ (SubscriberCreate (Js.trim (newEmail s)), k1);
                                   (SubscriberDelete (tempId t1), k2) ] |}).
  { unfold step, advance. cbn [handler_of screen inflight].
    rewrite Hrun2. reflexivity. }
  rewrite Hw2.
  assert (Hdrop : filter (id_differs (tempId t1)) (subscribers s1)
                  = filter (id_differs (tempId t1)) (subscribers s)).
  { rewrite Hsubs1. apply (filter_drops_head optimisticSub). }
  split; [ reflexivity | split; [ exact Hdrop | split ] ].
  - intros t3 detail. unfold step, advance.
    cbn [nth_error inflight screen drop_nth]. rewrite Hko2.
    cbn [finished performed suspended apply_effects fold_left apply_effect
         subscribers screen].
    rewrite Hsubs1. now left.
  - intros t3 detail. unfold step, advance.
    cbn [nth_error inflight screen drop_nth]. rewrite Hko1.
    split; reflexivity.
Qed.

Lemma rollback_from_own_render_witness :
  calls (steps [ (1%N, Invoke AddSubscriber);
                 (2%N, Invoke (DeleteSubscriber "temp-1")) ] (idle typing))
  = [ SubscriberCreate "a@x.io"; SubscriberDelete "temp-1" ].
Proof.
  refine (proj1 (@rollback_from_own_render typing 1 2 _)).
  vm_compute. discriminate.
Defined.

(** *** Further behaviour of the handlers *)

Lemma to_uint_not_nil (n : N) : N.to_uint n <> Decimal.Nil.
Proof.
  destruct n as [| p]; [ discriminate | ].
  apply DecimalPos.Unsigned.to_uint_nonnil.
Qed.

Lemma decimal_injective (a b : N) : Js.decimal a = Js.decimal b -> a = b.
Proof.
  unfold Js.decimal. intros H.
  apply DecimalN.Unsigned.to_uint_inj.
  apply (f_equal NilZero.uint_of_string) in H.
  rewrite !NilZero.usu in H by apply to_uint_not_nil.
  now injection H.
Qed.

Lemma tempId_same_reading (a b : N) : tempId a = tempId b -> a = b.
Proof.
  unfold tempId. intros H. cbn [append] in H.
  apply decimal_injective. now injection H.
Qed.

(** Temporary ids made at different clock readings differ. *)
Theorem tempId_injective (a b : N) : tempId a = tempId b -> a = b.
Proof.
  unfold tempId. intros H. cbn [append] in H.
  injection H as H. now apply decimal_injective.
Qed.

Lemma tempId_injective_witness : (1700000000001 = 1700000000001)%N.
Proof. exact (@tempId_injective 1700000000001 1700000000001 eq_refl). Defined.

Lemma trimStart_head (s : string) :
  Ends.starts_with_white_space (Js.trimStart s) = false.
Proof.
  induction s as [| c rest IH]; cbn [Js.trimStart]; [ reflexivity | ].
  destruct (Js.is_white_space c) eqn:E; [ exact IH | ].
  cbn [Ends.starts_with_white_space]. exact E.
Qed.

Lemma trimEnd_head (s : string) :
  Ends.starts_with_white_space s = false ->
  Ends.starts_with_white_space (Js.trimEnd s) = false.
Proof.
  destruct s as [| c rest]; [ reflexivity | ].
  cbn [Ends.starts_with_white_space Js.trimEnd]. intros Hc.
  destruct (Js.trimEnd rest); [ rewrite Hc | ]; exact Hc.
Qed.

Lemma trimEnd_tail (s : string) :
  Ends.ends_with_white_space (Js.trimEnd s) = false.
Proof.
  induction s as [| c rest IH]; [ reflexivity | ].
  cbn [Js.trimEnd].
  destruct (Js.trimEnd rest) as [| c' kept] eqn:E.
  - destruct (Js.is_white_space c) eqn:Hc; [ reflexivity | ].
    cbn [Ends.ends_with_white_space]. exact Hc.
  - exact IH.
Qed.

Lemma trim_ends (s : string) :
  Ends.starts_with_white_space (Js.trim s) = false
  /\ Ends.ends_with_white_space (Js.trim s) = false.
Proof.
  unfold Js.trim. split.
  - apply trimEnd_head, trimStart_head.
  - apply trimEnd_tail.
Qed.

(** The address of the optimistic record is the one sent to the remote:
    the typed text without the white space around it, and never empty. *)
Theorem added_email_is_trimmed (render : Screen) (now : N) c k :
  suspended (run now (handleAddSubscriber render)) = Some (c, k) ->
  exists rec e,
    subscribers (applied now render AddSubscriber) = rec :: subscribers render
    /\ c = SubscriberCreate e
    /\ email rec = e
    /\ e <> EmptyString
    /\ Ends.starts_with_white_space e = false
    /\ Ends.ends_with_white_space e = false.
Proof.
  intros H. unfold applied. cbn [handler_of]. stretches H.
  rewrite Hrun. cbn [performed].
  eexists. exists (Js.trim (newEmail render)).
  split; [ reflexivity | split; [ reflexivity | split; [ reflexivity | ] ] ].
  split; [ | apply trim_ends ].
  intros E. apply falsy_empty in E. congruence.
Qed.

Lemma added_email_is_trimmed_witness :
  exists rec,
    subscribers (applied 1 typing AddSubscriber) = rec :: subscribers typing
    /\ email rec = "a@x.io".
Proof.
  destruct (@added_email_is_trimmed typing 1 _ _ eq_refl)
    as (rec & e & Happ & Hc & Hmail & _).
  exists rec. split; [ exact Happ | ].
  rewrite Hmail. now injection Hc.
Defined.

Lemma or_else_nonempty (detail : option string) (fallback : string) :
  fallback <> EmptyString -> Js.or_else detail fallback <> EmptyString.
Proof.
  intros Hf. unfold Js.or_else.
  destruct detail as [[| c rest] |]; cbn [Js.falsy]; (exact Hf || discriminate).
Qed.

Lemma or_else_detail (d fallback : string) :
  d <> EmptyString -> Js.or_else (Some d) fallback = d.
Proof. destruct d; [ congruence | reflexivity ]. Qed.

(** The press of Add on any world, with the three stretches of the
    handler it leaves in flight. *)
Lemma step_add (w : World) (now : N) :
  Js.trim (newEmail (screen w)) <> EmptyString ->
  let temp := tempId now in
  let optimisticSub := {| id := temp; email := Js.trim (newEmail (screen w));
                          name := None; created_at := now |} in
  exists k,
    step now (Invoke AddSubscriber) w
    = {| screen := apply_effects
                     [ SetSubscribers (optimisticSub :: subscribers (screen w));
                       SetShowAddModal false; SetNewEmail EmptyString;
                       SetShowConfetti true; SetLoading true ] (screen w);
         inflight := inflight w
                     ++ [ (SubscriberCreate (Js.trim (newEmail (screen w))), k) ] |}
    /\ (forall now' data,
          run now' (k (Fulfilled data))
          = finished [ SetSubscribers
                         (data :: filter (id_differs temp) (subscribers (screen w)));
                       Haptic HapticSuccess; SetLoading false ])
    /\ (forall now' detail,
          run now' (k (Rejected detail))
          = finished [ SetSubscribers
                         (filter (id_differs temp) (subscribers (screen w)));
                       SetError (Some (Js.or_else detail "Failed to add subscriber"));
                       Haptic HapticError; SetLoading false ]).
Proof.
  intros Hne. cbn zeta.
  assert (G : Js.falsy (Js.trim (newEmail (screen w))) = false).
  { destruct (Js.falsy (Js.trim (newEmail (screen w)))) eqn:E; [ | reflexivity ].
    apply falsy_empty in E. contradiction. }
  destruct (run_add (screen w) now G) as (k & Hrun & Hok & Hko).
  exists k. split; [ | split; assumption ].
  unfold step, advance. cbn [handler_of]. rewrite Hrun. reflexivity.
Qed.

Lemma step_settle_head (now : N) (s : Screen) c k rest (r : Response) :
  step now (Settle 0 r) {| screen := s; inflight := (c, k) :: rest |}
  = advance now (k r) {| screen := s; inflight := rest |}.
Proof. reflexivity. Qed.

(** A rejected add does not undo what the press did to the modal: it
    stays closed, the typed address is gone, the confetti is on; the
    loading flag is down again and the error capsule carries a message. *)
Theorem failed_add_keeps_modal_closed (s : Screen) (t1 t2 : N)
        (detail : option string) :
  Js.trim (newEmail s) <> EmptyString ->
  let w := steps [ (t1, Invoke AddSubscriber);
                   (t2, Settle 0 (Rejected detail)) ] (idle s) in
  showAddModal (screen w) = false
  /\ newEmail (screen w) = EmptyString
  /\ showConfetti (screen w) = true
  /\ loading (screen w) = false
  /\ error (screen w) = Some (Js.or_else detail "Failed to add subscriber")
  /\ requests (screen w) = requests s
  /\ inflight w = [].
Proof.
  intros Hne. cbn zeta. cbn [steps].
  destruct (step_add (idle s) t1 Hne) as (k1 & Hw1 & _ & Hko1).
  cbn zeta in *. rewrite Hw1. cbn [idle inflight screen app].
  rewrite step_settle_head. unfold advance. rewrite Hko1.
  repeat (split; [ reflexivity | ]). reflexivity.
Qed.

Lemma failed_add_keeps_modal_closed_witness :
  newEmail (screen (steps [ (1%N, Invoke AddSubscriber);
                            (2%N, Settle 0 (Rejected None)) ] (idle typing)))
  = EmptyString.
Proof.
  refine (proj1 (proj2 (@failed_add_keeps_modal_closed typing 1 2 None _))).
  vm_compute. discriminate.
Defined.

(** Whichever mutation is rejected, the error capsule gets a message that
    is not empty: the detail the server sent when that is a non-empty
    string, and the handler's own text when the detail is missing or is the
    empty string. *)
Theorem rejection_always_shows_message
        (render : Screen) (now : N) (m : Mutation) c k
        (now' : N) (detail : option string) (s : Screen) :
  suspended (run now (handler_of render m)) = Some (c, k) ->
  exists msg,
    error (apply_effects (performed (run now' (k (Rejected detail)))) s) = Some msg
    /\ msg <> EmptyString
    /\ (forall d, detail = Some d -> d <> EmptyString -> msg = d)
    /\ (detail = None \/ detail = Some EmptyString ->
        msg = Guards.fallback_message m).
Proof.
  intros H.
  destruct m as [ | i | i | i ]; cbn [handler_of] in H; stretches H;
    rewrite Hko; cbn;
    (eexists; split; [ reflexivity | split;
       [ apply or_else_nonempty; discriminate
       | split; [ intros d -> Hd; now apply or_else_detail
                | intros [-> | ->]; reflexivity ] ] ]).
Qed.

Lemma rejection_always_shows_message_witness :
  error (screen (steps [ (1%N, Invoke (DeleteSubscriber "s1"));
                         (2%N, Settle 0 (Rejected (Some EmptyString))) ]
                       (idle roster)))
  = Some "Failed to delete subscriber".
Proof.
  destruct (@rejection_always_shows_message
              roster 1 (DeleteSubscriber "s1") _ _ 2 (Some EmptyString)
              (screen (step 1 (Invoke (DeleteSubscriber "s1")) (idle roster)))
              eq_refl) as (msg & Herr & _ & _ & Hfall).
  cbn [Guards.fallback_message] in Hfall.
  rewrite <- (Hfall (or_intror eq_refl)). exact Herr.
Defined.

(** A mutation the remote accepts never writes the error capsule: a
    message shown earlier stays until it is dismissed. *)
Theorem success_leaves_error_alone
        (render : Screen) (now : N) (m : Mutation) c k
        (now' : N) (data : Subscriber) (s : Screen) :
  suspended (run now (handler_of render m)) = Some (c, k) ->
  error (apply_effects (performed (run now' (k (Fulfilled data)))) s) = error s
  /\ suspended (run now' (k (Fulfilled data))) = None.
Proof.
  intros H.
  destruct m as [ | i | i | i ]; cbn [handler_of] in H; stretches H;
    rewrite Hok; split; reflexivity.
Qed.

Lemma success_leaves_error_alone_witness :
  error (screen (steps [ (1%N, Invoke AddSubscriber);
                         (2%N, Settle 0 (Fulfilled from_server)) ]
                       (idle typing))) = None.
Proof.
  exact (proj1 (@success_leaves_error_alone
                  typing 1 AddSubscriber _ _ 2 from_server
                  (screen (step 1 (Invoke AddSubscriber) (idle typing)))
                  eq_refl)).
Defined.

Lemma step_delete_request (w : World) (now : N) (reqId : string) (found : Request) :
  find (fun r => String.eqb (req_id r) reqId) (requests (screen w)) = Some found ->
  exists k,
    step now (Invoke (DeleteRequest reqId)) w
    = {| screen := apply_effects
                     [ SetRequests (filter (req_id_differs reqId)
                                           (requests (screen w))) ] (screen w);
         inflight := inflight w ++ [ (RequestDelete reqId, k) ] |}
    /\ (forall now' detail,
          run now' (k (Rejected detail))
          = finished [ SetRequests (requests (screen w) ++ [ found ]);
                       SetError (Some (Js.or_else detail
                                         "Failed to delete request")) ]).
Proof.
  intros Hfind.
  destruct (run_delete_request (screen w) now reqId Hfind) as (k & Hrun & _ & Hko).
  exists k. split; [ | exact Hko ].
  unfold step, advance. cbn [handler_of]. rewrite Hrun. reflexivity.
Qed.

Lemma step_approve (w : World) (now : N) (reqId : string) (found : Request) :
  find (fun r => String.eqb (req_id r) reqId) (requests (screen w)) = Some found ->
  exists k,
    step now (Invoke (ApproveRequest reqId)) w
    = {| screen := apply_effects
                     [ SetRequests (map (set_status reqId "approved")
                                        (requests (screen w)));
                       SetShowConfetti true ] (screen w);
         inflight := inflight w ++ [ (RequestApprove reqId, k) ] |}
    /\ (forall now' detail,
          run now' (k (Rejected detail))
          = finished [ SetRequests (map (set_status reqId "pending")
                                        (requests (screen w)));
                       SetError (Some (Js.or_else detail
                                         "Failed to approve request")) ]).
Proof.
  intros Hfind.
  destruct (run_approve (screen w) now reqId Hfind) as (k & Hrun & _ & Hko).
  exists k. split; [ | exact Hko ].
  unfold step, advance. cbn [handler_of]. rewrite Hrun. reflexivity.
Qed.

(** A rejected request delete puts the request back at the end of a list
    that never lost it: the request is then listed twice. *)
Theorem failed_request_delete_appends (s : Screen) (t1 t2 : N) (reqId : string)
        (detail : option string) (found : Request) :
  find (fun r => String.eqb (req_id r) reqId) (requests s) = Some found ->
  let w := steps [ (t1, Invoke (DeleteRequest reqId));
                   (t2, Settle 0 (Rejected detail)) ] (idle s) in
  In found (requests s)
  /\ requests (screen w) = requests s ++ [ found ]
  /\ List.length (requests (screen w)) = S (List.length (requests s))
  /\ inflight w = [].
Proof.
  intros Hfind. cbn zeta. cbn [steps].
  destruct (step_delete_request (idle s) t1 reqId Hfind) as (k & Hw & Hko).
  rewrite Hw. cbn [idle inflight screen app].
  rewrite step_settle_head. unfold advance. rewrite Hko.
  cbn [finished performed suspended apply_effects fold_left apply_effect
       requests screen inflight app].
  split; [ apply (find_some _ _ Hfind) | ].
  split; [ reflexivity | split; [ | reflexivity ] ].
  rewrite length_app. apply Nat.add_1_r.
Qed.

Lemma failed_request_delete_appends_witness :
  requests (screen (steps [ (1%N, Invoke (DeleteRequest "r1"));
                            (2%N, Settle 0 (Rejected None)) ] (idle typing)))
  = [ ask; ask ].
Proof.
  exact (proj1 (proj2 (@failed_request_delete_appends
                         typing 1 2 "r1" None ask eq_refl))).
Defined.

Lemma find_after_filter_subscribers (i : string) (l : list Subscriber) :
  find (fun s => String.eqb (id s) i) (filter (id_differs i) l) = None.
Proof.
  induction l as [| a l IH]; [ reflexivity | ].
  cbn [filter]. unfold id_differs at 1.
  destruct (String.eqb (id a) i) eqn:E; cbn [negb]; [ exact IH | ].
  cbn [find]. rewrite E. exact IH.
Qed.

Lemma find_after_filter_requests (i : string) (l : list Request) :
  find (fun r => String.eqb (req_id r) i) (filter (req_id_differs i) l) = None.
Proof.
  induction l as [| a l IH]; [ reflexivity | ].
  cbn [filter]. unfold req_id_differs at 1.
  destruct (String.eqb (req_id a) i) eqn:E; cbn [negb]; [ exact IH | ].
  cbn [find]. rewrite E. exact IH.
Qed.

(** The guard reads the list of the render the row belongs to, so a swipe
    fired a second time from the same rendered row gets past it again: a
    second delete for the same id goes out, and the list written is the
    same filtered one. *)
Theorem repeated_swipe_sends_again
        (w : World) (render : Screen) (t1 t2 : N) (i : string) :
  (exists sub, In sub (subscribers render) /\ id sub = i) ->
  let w1 := advance t1 (handleDeleteSubscriber render i) w in
  let w2 := advance t2 (handleDeleteSubscriber render i) w1 in
  exists k1 k2,
    inflight w2
    = inflight w ++ [ (SubscriberDelete i, k1); (SubscriberDelete i, k2) ]
    /\ subscribers (screen w1) = filter (id_differs i) (subscribers render)
    /\ subscribers (screen w2) = filter (id_differs i) (subscribers render).
Proof.
  intros Hin. cbn zeta.
  destruct (@find_present _ id i _ Hin) as (found & Hfind).
  destruct (run_delete render t1 i Hfind) as (k1 & Hrun1 & _).
  destruct (run_delete render t2 i Hfind) as (k2 & Hrun2 & _).
  exists k1, k2. unfold advance. rewrite Hrun1, Hrun2.
  cbn [performed suspended screen inflight]. rewrite <- app_assoc.
  split; [ reflexivity | split; reflexivity ].
Qed.

Lemma repeated_swipe_sends_again_witness :
  calls (advance 2 (handleDeleteSubscriber roster "s1")
                 (advance 1 (handleDeleteSubscriber roster "s1") (idle roster)))
  = [ SubscriberDelete "s1"; SubscriberDelete "s1" ].
Proof.
  destruct (@repeated_swipe_sends_again (idle roster) roster 1 2 "s1")
    as (k1 & k2 & Hfl & _).
  { exists ann. split; [ cbn; auto | reflexivity ]. }
  unfold calls. cbn zeta in Hfl. rewrite Hfl. reflexivity.
Defined.

Lemma pending_after_approve (i : string) (l : list Request) :
  Refresh.pendingRequests (map (set_status i "approved") l)
  = filter (req_id_differs i) (Refresh.pendingRequests l).
Proof.
  unfold Refresh.pendingRequests.
  induction l as [| a l IH]; [ reflexivity | ].
  cbn [map filter]. rewrite IH.
  destruct (String.eqb (req_id a) i) eqn:Ei.
  - replace (status (set_status i "approved" a)) with "approved"
      by (unfold set_status; now rewrite Ei).
    change (String.eqb "approved" "pending") with false. cbn iota.
    destruct (String.eqb (status a) "pending"); [ | reflexivity ].
    cbn [filter]. unfold req_id_differs at 2. rewrite Ei. reflexivity.
  - replace (set_status i "approved" a) with a
      by (unfold set_status; now rewrite Ei).
    destruct (String.eqb (status a) "pending"); [ | reflexivity ].
    cbn [filter]. unfold req_id_differs at 2. rewrite Ei. reflexivity.
Qed.

Lemma filter_requests_all (i : string) (l : list Request) :
  find (fun r => String.eqb (req_id r) i) l = None ->
  filter (req_id_differs i) (Refresh.pendingRequests l) = Refresh.pendingRequests l.
Proof.
  intros Hnone. unfold Refresh.pendingRequests.
  induction l as [| a l IH]; [ reflexivity | ].
  cbn [find] in Hnone.
  destruct (String.eqb (req_id a) i) eqn:Ei; [ discriminate | ].
  cbn [filter]. destruct (String.eqb (status a) "pending").
  - cbn [filter]. unfold req_id_differs at 1. rewrite Ei. cbn [negb].
    f_equal. now apply IH.
  - now apply IH.
Qed.

(** Pressing approve takes the request out of the pending list at once:
    what is left pending are the pending requests under other ids, in
    their order, so the counter and the badge drop before any reply. *)
Theorem approve_leaves_pending (w : World) (now : N) (i : string) :
  Refresh.pendingRequests
    (requests (screen (step now (Invoke (ApproveRequest i)) w)))
  = filter (req_id_differs i) (Refresh.pendingRequests (requests (screen w))).
Proof.
  destruct (find (fun r => String.eqb (req_id r) i) (requests (screen w)))
    as [x|] eqn:E.
  - destruct (step_approve w now i E) as (k & Hw & _). rewrite Hw.
    cbn [screen apply_effects fold_left apply_effect requests].
    apply pending_after_approve.
  - rewrite guarded_mutation_is_noop.
    + symmetry. now apply filter_requests_all.
    + cbn [handler_of]. unfold handleApproveRequest. now rewrite E.
Qed.

Lemma set_status_same (i st : string) (l : list Request) :
  (forall r, In r l -> req_id r = i -> status r = st) ->
  map (set_status i st) l = l.
Proof.
  induction l as [| a l IH]; intros Hall; [ reflexivity | ].
  cbn [map]. rewrite IH by (intros r Hr; apply Hall; now right).
  f_equal. unfold set_status.
  destruct (String.eqb_spec (req_id a) i) as [Hi | _]; [ | reflexivity ].
  rewrite <- (Hall a (or_introl eq_refl) Hi). now destruct a.
Qed.

(** A rejected approval gives back the very list of requests it started
    from, provided the requests under that id were pending, as they are
    when the approve button is on screen. *)
Theorem failed_approve_restores_pending (s : Screen) (t1 t2 : N) (i : string)
        (detail : option string) :
  (forall r, In r (requests s) -> req_id r = i -> status r = "pending") ->
  requests (screen (steps [ (t1, Invoke (ApproveRequest i));
                            (t2, Settle 0 (Rejected detail)) ] (idle s)))
  = requests s.
Proof.
  intros Hpending. cbn [steps].
  destruct (find (fun r => String.eqb (req_id r) i) (requests s)) as [x|] eqn:E.
  - destruct (step_approve (idle s) t1 i E) as (k & Hw & Hko).
    rewrite Hw. cbn [idle inflight screen app].
    rewrite step_settle_head. unfold advance. rewrite Hko.
    cbn [finished performed suspended apply_effects fold_left apply_effect
         requests screen].
    now apply set_status_same.
  - rewrite guarded_mutation_is_noop; [ reflexivity | ].
    cbn [handler_of idle screen]. unfold handleApproveRequest. now rewrite E.
Qed.

Lemma failed_approve_restores_pending_witness :
  requests (screen (steps [ (1%N, Invoke (ApproveRequest "r1"));
                            (2%N, Settle 0 (Rejected None)) ] (idle typing)))
  = [ ask ].
Proof.
  refine (@failed_approve_restores_pending typing 1 2 "r1" None _).
  intros r [<- | []] _. reflexivity.
Defined.

Lemma filter_keeps_head (x : string) (sub : Subscriber) (l : list Subscriber) :
  id sub <> x ->
  filter (id_differs x) (sub :: l) = sub :: filter (id_differs x) l.
Proof.
  intros Hne. cbn [filter]. unfold id_differs at 1.
  now rewrite (proj2 (String.eqb_neq (id sub) x) Hne).
Qed.

Lemma step_type_email (now : N) (e : string) (w : World) :
  step now (TypeEmail e) w
  = {| screen := apply_effect (SetNewEmail e) (screen w);
       inflight := inflight w |}.
Proof. reflexivity. Qed.

(** Two adds in flight at once do not compose.  When both are accepted,
    in the order they were sent, the second confirmation rebuilds the list
    from its own render: the first subscriber is back under its temporary
    id and the record the remote returned for it is gone. *)
Theorem second_confirmation_revives_temp_record
        (s : Screen) (e2 : string) (t1 t t2 t3 t4 : N) (dA dB : Subscriber) :
  Js.trim (newEmail s) <> EmptyString ->
  Js.trim e2 <> EmptyString ->
  t1 <> t2 ->
  let optimisticA := {| id := tempId t1; email := Js.trim (newEmail s);
                        name := None; created_at := t1 |} in
  let w := steps [ (t1, Invoke AddSubscriber); (t, TypeEmail e2);
                   (t2, Invoke AddSubscriber);
                   (t3, Settle 0 (Fulfilled dA));
                   (t4, Settle 0 (Fulfilled dB)) ] (idle s) in
  subscribers (screen w)
  = dB :: optimisticA :: filter (id_differs (tempId t2)) (subscribers s)
  /\ inflight w = [].
Proof.
  intros Hne1 Hne2 Ht. cbn zeta. cbn [steps].
  destruct (step_add (idle s) t1 Hne1) as (k1 & Hw1 & Hok1 & _).
  cbn zeta in *. rewrite Hw1. cbn [idle inflight screen app] in *.
  set (optimisticA := {| id := tempId t1; email := Js.trim (newEmail s);
                         name := None; created_at := t1 |}) in *.
  set (s1 := apply_effects _ s) in *.
  rewrite step_type_email. cbn [screen inflight].
  set (s2 := apply_effect (SetNewEmail e2) s1).
  assert (Hmail : newEmail s2 = e2) by reflexivity.
  assert (Hsubs : subscribers s2 = optimisticA :: subscribers s) by reflexivity.
  destruct (step_add {| screen := s2;
                        inflight := [ (SubscriberCreate (Js.trim (newEmail s)), k1) ] |}
                     t2) as (k2 & Hw2 & Hok2 & _).
  { cbn [screen]. now rewrite Hmail. }
  cbn zeta in *. cbn [screen inflight] in *. rewrite Hw2. cbn [app].
  rewrite step_settle_head. unfold advance. rewrite Hok1.
  cbn [finished performed suspended app screen inflight].
  rewrite step_settle_head. unfold advance. rewrite Hok2.
  cbn [finished performed suspended app screen inflight].
  split; [ | reflexivity ].
  cbn [apply_effects fold_left apply_effect subscribers].
  rewrite Hsubs. f_equal. apply filter_keeps_head.
  cbn [id optimisticA]. intros H. apply Ht. now apply tempId_same_reading.
Qed.

Lemma second_confirmation_revives_temp_record_witness :
  subscribers
    (screen (steps [ (1%N, Invoke AddSubscriber); (2%N, TypeEmail "b@x.io");
                     (3%N, Invoke AddSubscriber);
                     (4%N, Settle 0 (Fulfilled from_server));
                     (5%N, Settle 0 (Fulfilled ann)) ] (idle typing)))
  = [ ann; {| id := "temp-1"; email := "a@x.io"; name := None; created_at := 1 |} ].
Proof.
  refine (proj1 (@second_confirmation_revives_temp_record
                   typing "b@x.io" 1 2 3 4 5 from_server ann _ _ _));
    vm_compute; discriminate.
Defined.

(** What a refresh leaves on screen: each list is what its own request
    returned, and empty when that request failed or carried no data; no
    error is raised and nothing else on the screen moves. *)
Theorem refresh_blanks_failed_list
        (subsRes : Refresh.Fetched Subscriber) (reqsRes : Refresh.Fetched Request)
        (s : Screen) :
  let s' := apply_effects (Refresh.fetchData subsRes reqsRes) s in
  subscribers s' = match subsRes with
                   | Refresh.Loaded (Some l) => l
                   | _ => []
                   end
  /\ requests s' = match reqsRes with
                   | Refresh.Loaded (Some l) => l
                   | _ => []
                   end
  /\ error s' = error s
  /\ loading s' = loading s
  /\ showAddModal s' = showAddModal s
  /\ newEmail s' = newEmail s
  /\ showConfetti s' = showConfetti s.
Proof.
  cbn zeta.
  destruct subsRes as [[l1|]|], reqsRes as [[l2|]|];
    repeat (split; [ reflexivity | ]); reflexivity.
Qed.

(** A create that settles after a refresh throws the refreshed subscribers
    away: the list is rebuilt from the render the handler was started on.
    The refreshed requests stay. *)
Theorem settled_create_discards_refresh
        (render : Screen) (now : N) c k
        (subsRes : Refresh.Fetched Subscriber) (reqsRes : Refresh.Fetched Request)
        (s : Screen) (now' : N) (r : Response) :
  suspended (run now (handleAddSubscriber render)) = Some (c, k) ->
  let refreshed := apply_effects (Refresh.fetchData subsRes reqsRes) s in
  let settled := apply_effects (performed (run now' (k r))) refreshed in
  subscribers settled
  = match r with
    | Fulfilled data =>
        data :: filter (id_differs (tempId now)) (subscribers render)
    | Rejected _ => filter (id_differs (tempId now)) (subscribers render)
    end
  /\ requests settled = requests refreshed.
Proof.
  intros H. cbn zeta. stretches H.
  destruct r as [data | detail]; [ rewrite Hok | rewrite Hko ];
    split; reflexivity.
Qed.

Lemma settled_create_discards_refresh_witness :
  subscribers
    (apply_effects
       (Refresh.fetchData (Refresh.Loaded (Some [ ann ])) Refresh.Unreachable)
       (screen (step 1 (Invoke AddSubscriber) (idle typing))))
  = [ ann ]
  /\ subscribers
       (screen
          (step 3 (Settle 0 (Fulfilled from_server))
                {| screen :=
                     apply_effects
                       (Refresh.fetchData (Refresh.Loaded (Some [ ann ]))
                                          Refresh.Unreachable)
                       (screen (step 1 (Invoke AddSubscriber) (idle typing)));
                   inflight := inflight (step 1 (Invoke AddSubscriber)
                                              (idle typing)) |}))
     = [ from_server ].
Proof.
  split; [ reflexivity | ].
  exact (proj1 (@settled_create_discards_refresh
                  typing 1 _ _ (Refresh.Loaded (Some [ ann ])) Refresh.Unreachable
                  (screen (step 1 (Invoke AddSubscriber) (idle typing)))
                  3 (Fulfilled from_server) eq_refl)).
Defined.

End Optimistic.

(* ------------------------------------------------------------------ *)
(** ** Ids that are not on the list *)

Section MissingIds.

Import Subscriptions.

Lemma find_absent {A} (key : A -> string) (i : string) (l : list A) :
  (forall x, In x l -> key x <> i) ->
  find (fun x => String.eqb (key x) i) l = None.
Proof.
  induction l as [| a l IH]; intros Hall; [ reflexivity | ].
  cbn [find].
  rewrite (proj2 (String.eqb_neq (key a) i) (Hall a (or_introl eq_refl))).
  apply IH. intros x Hx. apply Hall. now right.
Qed.

(** A swipe aimed at an id no listed subscriber carries changes nothing
    on screen and sends nothing; so do an approval and a request swipe
    aimed at an id no listed request carries. *)
Theorem missing_id_is_noop (w : World) (now : N) (i : string) :
  ((forall x, In x (subscribers (screen w)) -> id x <> i) ->
   step now (Invoke (DeleteSubscriber i)) w = w)
  /\ ((forall r, In r (requests (screen w)) -> req_id r <> i) ->
      step now (Invoke (ApproveRequest i)) w = w
      /\ step now (Invoke (DeleteRequest i)) w = w).
Proof.
  split.
  - intros Hsubs.
    pose proof (@find_absent _ id i (subscribers (screen w)) Hsubs) as Fs.
    apply guarded_mutation_is_noop. cbn [handler_of].
    unfold handleDeleteSubscriber. now rewrite Fs.
  - intros Hreqs.
    pose proof (@find_absent _ req_id i (requests (screen w)) Hreqs) as Fr.
    split; apply guarded_mutation_is_noop; cbn [handler_of].
    + unfold handleApproveRequest. now rewrite Fr.
    + unfold handleDeleteRequest. now rewrite Fr.
Qed.

(** The theorem at a subscriber id that a request carries, and at a
    request id that a subscriber carries. *)
Lemma missing_id_is_noop_witness :
  step 3 (Invoke (DeleteSubscriber "r1")) (idle typing_over_roster)
  = idle typing_over_roster
  /\ step 3 (Invoke (ApproveRequest "s1")) (idle typing_over_roster)
     = idle typing_over_roster.
Proof.
  split.
  - refine (proj1 (@missing_id_is_noop (idle typing_over_roster) 3 "r1") _).
    intros x [<- | []]. discriminate.
  - refine (proj1 (proj2 (@missing_id_is_noop (idle typing_over_roster) 3 "s1") _)).
    intros r [<- | []]. discriminate.
Defined.

End MissingIds.

(* ------------------------------------------------------------------ *)
(** ** Owner tab: capitals and order *)

Section OwnerTabMore.

Import TabLayout.

Lemma lower_char_idempotent (c : ascii) :
  Js.lower_char (Js.lower_char c) = Js.lower_char c.
Proof.
  destruct c as [b0 b1 b2 b3 b4 b5 b6 b7].
  destruct b0, b1, b2, b3, b4, b5, b6, b7; reflexivity.
Qed.

Lemma toLowerCase_idempotent (s : string) :
  Js.toLowerCase (Js.toLowerCase s) = Js.toLowerCase s.
Proof.
  induction s as [| c rest IH]; [ reflexivity | ].
  cbn [Js.toLowerCase]. now rewrite lower_char_idempotent, IH.
Qed.

Lemma isPartner_app (user : option User) (p1 p2 : list Partner) :
  isPartner user (p1 ++ p2) = isPartner user p1 || isPartner user p2.
Proof. unfold isPartner. apply existsb_app. Qed.

Lemma isPartner_permutation (user : option User) (p1 p2 : list Partner) :
  Permutation p1 p2 -> isPartner user p1 = isPartner user p2.
Proof.
  unfold isPartner. intros Hperm.
  induction Hperm as [ | x l l' _ IH | x y l | l l' l'' _ IH1 _ IH2 ];
    cbn [existsb].
  - reflexivity.
  - now rewrite IH.
  - rewrite !Bool.orb_assoc. f_equal. apply Bool.orb_comm.
  - now rewrite IH1.
Qed.

(** Access does not depend on how the signed-in address is capitalised,
    nor on the order in which the partner records are held: any
    rearrangement of them gives the same answer. *)
Theorem access_ignores_capitals_and_order
        (e : string) (user : option User) (p1 p2 : list Partner) :
  canAccessOwner (Some {| email := Some (Js.toLowerCase e) |}) p1
  = canAccessOwner (Some {| email := Some e |}) p1
  /\ (Permutation p1 p2 -> canAccessOwner user p1 = canAccessOwner user p2).
Proof.
  split.
  - unfold canAccessOwner, isOwner, isPartner, user_email, lowered.
    cbn [email option_map]. now rewrite toLowerCase_idempotent.
  - intros Hperm. unfold canAccessOwner.
    now rewrite (isPartner_permutation user Hperm).
Qed.

Lemma access_ignores_capitals_and_order_witness :
  canAccessOwner (Some {| email := Some "b@shop.io" |})
                 [ {| partner_email := Some "a@shop.io" |};
                   {| partner_email := Some "B@shop.io" |};
                   {| partner_email := None |} ]
  = canAccessOwner (Some {| email := Some "b@shop.io" |})
                   [ {| partner_email := Some "B@shop.io" |};
                     {| partner_email := Some "a@shop.io" |};
                     {| partner_email := None |} ].
Proof.
  refine (proj2 (@access_ignores_capitals_and_order
                   "x" (Some {| email := Some "b@shop.io" |}) _ _) _).
  apply perm_swap.
Defined.

End OwnerTabMore.

(* ------------------------------------------------------------------ *)
(** ** Owner dashboard *)

Section DashboardFacts.

Import OwnerDashboard.

(** A product is either counted as low on stock or has a known quantity
    of ten or more: a product whose quantity is missing counts as low. *)
Theorem lowStock_complement (products : list Product) :
  lowStock products
  + List.length (filter (fun p => match quantity p with
                                  | Some q => (10 <=? q)%Z
                                  | None => false
                                  end) products)
  = totalProducts products.
Proof.
  unfold lowStock, totalProducts.
  induction products as [| p l IH]; [ reflexivity | ].
  cbn [filter]. unfold quantity_or_zero at 1.
  destruct (quantity p) as [q|].
  - destruct (Z.ltb_spec q 10), (Z.leb_spec 10 q); try lia;
      cbn [List.length]; lia.
  - change (0 <? 10)%Z with true. cbn [List.length]. lia.
Qed.

Example lowStock_missing_quantity :
  lowStock [ {| quantity := None |}; {| quantity := Some 40%Z |};
             {| quantity := Some 9%Z |} ] = 2.
Proof. reflexivity. Qed.

(** The background gradient gets the mood's own colours when there are
    three or more of them and the three default colours otherwise, so
    never fewer than three. *)
Theorem gradient_has_three_colors (gradient : list string) :
  (3 <= List.length gradient -> gradient_colors gradient = gradient)
  /\ (List.length gradient < 3 ->
      gradient_colors gradient = [ "#1E1E3F"; "#2D2D5F"; "#3D3D7F" ])
  /\ 3 <= List.length (gradient_colors gradient).
Proof.
  unfold gradient_colors.
  destruct (Nat.leb_spec 3 (List.length gradient)) as [Hge | Hlt].
  - split; [ reflexivity | split; [ lia | exact Hge ] ].
  - split; [ lia | split; [ reflexivity | cbn [List.length]; lia ] ].
Qed.

Lemma gradient_has_three_colors_witness :
  gradient_colors [ "#111111"; "#222222"; "#333333"; "#444444" ]
  = [ "#111111"; "#222222"; "#333333"; "#444444" ]
  /\ gradient_colors [ "#111111"; "#222222" ]
     = [ "#1E1E3F"; "#2D2D5F"; "#3D3D7F" ].
Proof.
  split.
  - refine (proj1 (gradient_has_three_colors _) _). cbn [List.length]. lia.
  - refine (proj1 (proj2 (gradient_has_three_colors _)) _). cbn [List.length]. lia.
Defined.

End DashboardFacts.

(* ------------------------------------------------------------------ *)
(** ** Schema: names and timestamps *)

Section SchemaNames.

Import Schema.

(** Discharge [NoDup] on a list of string literals. *)
Ltac distinct_literals :=
  repeat (constructor;
          [ cbn [In]; intros H;
            repeat (destruct H as [H | H]; [ discriminate | ]); exact H | ]);
  constructor.

(** No two tables share a name, and within a table no two columns do. *)
Theorem schema_names_unique :
  NoDup (map table_name tables)
  /\ Forall (fun t => NoDup (map name (columns t))) tables.
Proof.
  split.
  - unfold tables. cbn [map table_name car_brands car_models product_brands
                        categories products favorites cart_items sync_metadata].
    distinct_literals.
  - unfold tables.
    repeat (constructor; [ vm_compute; distinct_literals | ]).
    constructor.
Qed.

Lemma entity_tables_have_timestamps_witness : has_timestamps cart_items = true.
Proof.
  apply entity_tables_have_timestamps.
  - unfold tables. cbn [In]. tauto.
  - discriminate.
Defined.

End SchemaNames.

(* ------------------------------------------------------------------ *)
(** ** Order status indicator: instances *)

Section StatusInstances.

Import OrderStatus.

Lemma unknown_status_falls_back_witness :
  OrderStatusIndicator (Some "refunded") = Some no_active_order_rendering.
Proof.
  apply unknown_status_falls_back.
  - unfold configured_keys, STATUS_CONFIG. cbn [map fst In]. intros H.
    repeat (destruct H as [H | H]; [ discriminate | ]). exact H.
  - unfold object_prototype_keys. cbn [In]. intros H.
    repeat (destruct H as [H | H]; [ discriminate | ]). exact H.
Defined.

Lemma pulse_exactly_active_witness : In "shipped" pulsing_statuses.
Proof.
  exact (proj1 (@pulse_exactly_active
                  "shipped"
                  {| backgroundColor := Some "#10B981"; shouldPulse := true |}
                  eq_refl) eq_refl).
Defined.

End StatusInstances.

(* ------------------------------------------------------------------ *)
(** ** Subscriptions screen: instances *)

Section OptimisticInstances.

Import Subscriptions.

Lemma failed_create_restores_witness :
  subscribers (screen (steps [ (1%N, Invoke AddSubscriber);
                               (2%N, Settle 0 (Rejected None)) ]
                             (idle typing_over_roster)))
  = [ ann ].
Proof.
  refine (@failed_create_restores typing_over_roster 1 2 _ _ None eq_refl _).
  intros s [<- | []]. discriminate.
Defined.

End OptimisticInstances.
